(** * SAR aircraft detection service: the upload pipeline of [app.py]

    A shallow embedding of the request pipeline of [src/app.py]
    (validate, store, infer, summarise, respond) and of the two statistics
    the embedded page script derives from a response (average confidence and
    threat level), followed by the properties proved about them.

    Conventions.
    - A Python [str] is a [string]; the characters that matter to the code
      (['.'], ['/'], ASCII letters and digits) are ASCII.
    - A JavaScript number and a Python [float] are IEEE 754 binary64 values,
      modelled by the kernel's primitive [float].
    - A Python exception is the constructor [Raise] of [outcome], carrying
      [str(e)].
    - The file system is a finite map from paths to file contents. *)

From Stdlib Require Import ZArith NArith Lia Ascii String List Bool.
From Stdlib Require Import PrimFloat Uint63 DecimalString Floats.
From stdpp Require Import gmap strings list fin_maps.

Set Warnings "-inexact-float,-register-all".
Open Scope string_scope.
Open Scope Z_scope.

(* ===================================================================== *)
(** * Definitions                                                         *)
(* ===================================================================== *)

(** ** Python string operations used by the pipeline *)

Module Str.

(** [c in s] for a one-character [c]. *)
Fixpoint contains (c : ascii) (s : string) : bool :=
  match s with
  | EmptyString => false
  | String a s' => if Ascii.eqb a c then true else contains c s'
  end.

(** [s.rfind(c)]: the index of the last [c] in [s], or [-1]. *)
Fixpoint rfind (c : ascii) (s : string) : Z :=
  match s with
  | EmptyString => -1
  | String a s' =>
      let r := rfind c s' in
      if 0 <=? r then r + 1 else if Ascii.eqb a c then 0 else -1
  end.

(** [s[:n]] and [s[n:]] for [0 <= n]. *)
Fixpoint take (n : nat) (s : string) : string :=
  match n, s with
  | S n', String a s' => String a (take n' s')
  | _, _ => EmptyString
  end.

Fixpoint drop (n : nat) (s : string) : string :=
  match n, s with
  | S n', String _ s' => drop n' s'
  | _, _ => s
  end.

(** [s[i:i+1]]: the empty string when [i] is out of range. *)
Definition char_at (i : nat) (s : string) : string := take 1 (drop i s).

(** One split at the last occurrence of the separator [c]:
    [Some (s[:i], s[i+1:])] with [i = s.rfind(c)], [None] without one. *)
Fixpoint rsplit_once (c : ascii) (s : string) : option (string * string) :=
  match s with
  | EmptyString => None
  | String a s' =>
      match rsplit_once c s' with
      | Some (l, r) => Some (String a l, r)
      | None => if Ascii.eqb a c then Some (EmptyString, s') else None
      end
  end.

(** [s.rsplit(c, maxsplit)]: at most [maxsplit] splits, from the right. *)
Fixpoint rsplit (c : ascii) (maxsplit : nat) (s : string) : list string :=
  match maxsplit with
  | O => [s]
  | S n =>
      match rsplit_once c s with
      | Some (l, r) => rsplit c n l ++ [r]
      | None => [s]
      end
  end.

(** [c.lower()] on ASCII: ['A'..'Z'] move to ['a'..'z']. No other
    character lower-cases to a letter of an allowed extension, so leaving
    the others as they are does not change what [allowed_file] answers. *)
Definition lower_char (c : ascii) : ascii :=
  let n := N_of_ascii c in
  if ((65 <=? n) && (n <=? 90))%N then ascii_of_N (n + 32) else c.

(** [s.lower()]. *)
Fixpoint lower (s : string) : string :=
  match s with
  | EmptyString => EmptyString
  | String a s' => String (lower_char a) (lower s')
  end.

(** [s.startswith(c)] and [s.endswith(c)] for a one-character [c]. *)
Definition startswith (c : ascii) (s : string) : bool :=
  match s with
  | String a _ => Ascii.eqb a c
  | EmptyString => false
  end.

Fixpoint endswith (c : ascii) (s : string) : bool :=
  match s with
  | EmptyString => false
  | String a EmptyString => Ascii.eqb a c
  | String _ s' => endswith c s'
  end.

End Str.

(** ** Outcomes of fallible calls *)

(** What a Python call does: it returns a value, or raises an exception [e]
    of which the pipeline only ever uses [str(e)]. [Raise] stands for the
    errors of class [Exception], the ones the handler's [except Exception]
    clauses are written for; an exception outside that class
    ([KeyboardInterrupt], [SystemExit]) ends the request in the server, not
    in the handler, and has no constructor here. *)
Inductive outcome (A : Type) : Type :=
| Return (a : A)
| Raise (msg : string).
Arguments Return {A} a.
Arguments Raise {A} msg.

(** ** The page script: statistics derived from a response *)

Module Page.

Inductive ThreatLevel := LOW | MEDIUM | HIGH.

(** [showResults]: the threat level from [data.detection_count].
<<
    let threatLevel = 'LOW';
    if (data.detection_count >= 5) { threatLevel = 'HIGH'; }
    else if (data.detection_count >= 2) { threatLevel = 'MEDIUM'; }
>> *)
Definition threatLevel (detection_count : Z) : ThreatLevel :=
  if 5 <=? detection_count then HIGH
  else if 2 <=? detection_count then MEDIUM
  else LOW.

(** [Array.prototype.reduce] with an initial value: a left fold. *)
Definition reduce {A B : Type} (f : B -> A -> B) (init : B) (l : list A) : B :=
  fold_left f l init.

(** [arr.length] as a JavaScript number (array lengths are below [2^32],
    so the conversion is exact). *)
Definition length_number {A : Type} (l : list A) : float :=
  PrimFloat.of_uint63 (Uint63.of_Z (Z.of_nat (length l))).

(** [showResults]: the average confidence over [data.detections], given
    here as the list of the [confidence] fields.
<<
    const avgConfidence = data.detections.length > 0
      ? data.detections.reduce((sum, det) => sum + det.confidence, 0)
          / data.detections.length
      : 0;
>> *)
Definition avgConfidence (confidences : list float) : float :=
  if 0 <? Z.of_nat (length confidences)
  then (reduce PrimFloat.add 0 confidences / length_number confidences)%float
  else 0%float.

(** The arithmetic mean as the specification words it: the sum of the
    values over their number. The sum is taken in order in binary64
    arithmetic ([sum_in_order] takes the values last first); the number is
    the binary64 value that is exactly the count, said on the bits of the
    float ([Prim2SF]) and not through any conversion the script uses. *)
Fixpoint sum_in_order (rev_values : list float) : float :=
  match rev_values with
  | [] => 0%float
  | x :: earlier => (sum_in_order earlier + x)%float
  end.

(** [x] is the finite positive binary64 number [m * 2^e] whose value is
    exactly the integer [n]. *)
Definition is_count (x : float) (n : nat) : Prop :=
  exists (m : positive) (e : Z),
    Prim2SF x = S754_finite false m e /\
    e <= 0 /\ Z.pos m = Z.of_nat n * 2 ^ (- e).

Definition is_arithmetic_mean (values : list float) (mean : float) : Prop :=
  exists count,
    is_count count (length values) /\
    mean = (sum_in_order (rev values) / count)%float.

End Page.

(** ** Upload validation *)

Definition ALLOWED_EXTENSIONS : gset string :=
  {[ "png"; "jpg"; "jpeg"; "bmp"; "tiff"; "tif" ]}.

(** [l[i]]: raises [IndexError] out of range. *)
Definition getitem {A : Type} (l : list A) (i : nat) : outcome A :=
  match l !! i with
  | Some x => Return x
  | None => Raise "list index out of range"
  end.

(** [allowed_file]:
<<
    return '.' in filename and \
           filename.rsplit('.', 1)[1].lower() in ALLOWED_EXTENSIONS
>> *)
Definition allowed_file (filename : string) : outcome bool :=
  if Str.contains "." filename then
    match getitem (Str.rsplit "." 1 filename) 1 with
    | Return ext => Return (bool_decide (Str.lower ext ∈ ALLOWED_EXTENSIONS))
    | Raise e => Raise e
    end
  else Return false.

(** The extension of a file name as the specification words it: the suffix
    after the last ['.'], when there is one. *)
Definition has_extension (filename ext : string) : Prop :=
  exists stem, filename = stem ++ "." ++ ext /\ Str.contains "." ext = false.

(** ** Time stamps *)

(** A [datetime.datetime]; Python keeps every field in its range
    ([datetime_ok] below). *)
Record datetime := {
  year : N; month : N; day : N;
  hour : N; minute : N; second : N; microsecond : N
}.

Definition datetime_ok (dt : datetime) : Prop :=
  (1000 <= year dt <= 9999 /\ 1 <= month dt <= 12 /\ 1 <= day dt <= 31 /\
   hour dt < 24 /\ minute dt < 60 /\ second dt < 60 /\
   microsecond dt < 1000000)%N.

Definition digit (n : N) : ascii := ascii_of_N (48 + n mod 10).

(** [n] as [width] decimal digits, zero-padded on the left, which is what
    the C format [%0<width>d] prints for [n < 10^width]. *)
Fixpoint zpad (width : nat) (n : N) : string :=
  match width with
  | O => EmptyString
  | S w => zpad w (n / 10) ++ String (digit n) EmptyString
  end.

(** The [strftime] directives the pipeline uses; any other one is kept as
    it is written. [%Y] is four digits, as every platform prints the years
    1000 to 9999 of [datetime_ok]. *)
Definition directive (dt : datetime) (d : ascii) : string :=
  match d with
  | "Y"%char => zpad 4 (year dt)
  | "m"%char => zpad 2 (month dt)
  | "d"%char => zpad 2 (day dt)
  | "H"%char => zpad 2 (hour dt)
  | "M"%char => zpad 2 (minute dt)
  | "S"%char => zpad 2 (second dt)
  | "f"%char => zpad 6 (microsecond dt)
  | _ => String "%" (String d EmptyString)
  end.

(** [dt.strftime(format)]. *)
Fixpoint strftime (dt : datetime) (format : string) : string :=
  match format with
  | EmptyString => EmptyString
  | String c rest =>
      if Ascii.eqb c "%" then
        match rest with
        | String d rest' => directive dt d ++ strftime dt rest'
        | EmptyString => String c EmptyString
        end
      else String c (strftime dt rest)
  end.

(** ** Paths ([posixpath]) *)

(** [os.path.join(a, b)]. *)
Definition os_path_join (a b : string) : string :=
  if Str.startswith "/" b then b
  else if (String.eqb a "" || Str.endswith "/" a)%bool then a ++ b
  else a ++ "/" ++ b.

(** The loop of [genericpath._splitext] that skips leading dots: it runs
    [filenameIndex] up to [dotIndex] and splits at [dotIndex] as soon as it
    meets a character that is not a dot. *)
Fixpoint splitext_scan (p : string) (dotIndex filenameIndex steps : nat)
  : option (string * string) :=
  match steps with
  | O => None
  | S k =>
      if negb (String.eqb (Str.char_at filenameIndex p) ".")
      then Some (Str.take dotIndex p, Str.drop dotIndex p)
      else splitext_scan p dotIndex (S filenameIndex) k
  end.

(** [os.path.splitext(p)]:
<<
    sepIndex = p.rfind(sep)
    dotIndex = p.rfind(extsep)
    if dotIndex > sepIndex:
        filenameIndex = sepIndex + 1
        while filenameIndex < dotIndex:
            if p[filenameIndex:filenameIndex+1] != extsep:
                return p[:dotIndex], p[dotIndex:]
            filenameIndex += 1
    return p, p[:0]
>> *)
Definition splitext (p : string) : string * string :=
  let sepIndex := Str.rfind "/" p in
  let dotIndex := Str.rfind "." p in
  if sepIndex <? dotIndex then
    let filenameIndex := sepIndex + 1 in
    match splitext_scan p (Z.to_nat dotIndex) (Z.to_nat filenameIndex)
            (Z.to_nat (dotIndex - filenameIndex)) with
    | Some r => r
    | None => (p, EmptyString)
    end
  else (p, EmptyString).

(** ** Data of the pipeline *)

Definition bytes := list Byte.byte.

(** The values [jsonify] serialises. A [dict] keeps its items in the order
    the source writes them. *)
Inductive json :=
| JBool (b : bool)
| JInt (n : Z)
| JFloat (x : float)
| JStr (s : string)
| JList (items : list json)
| JDict (items : list (string * json)).

(** A Flask response: the status code and the dictionary given to
    [jsonify]. *)
Record Response := { status : Z; body : list (string * json) }.

(** A [werkzeug] [FileStorage]: the file name the client sent and the bytes
    of the part. *)
Record FileStorage := { filename : string; stream : bytes }.

(** A request: [request.files], a multi-dict from field names to parts. *)
Record Request := { files : list (string * FileStorage) }.

(** [request.files[key]], the first part of that name; [None] stands for
    [key not in request.files]. *)
Fixpoint files_get (key : string) (parts : list (string * FileStorage))
  : option FileStorage :=
  match parts with
  | [] => None
  | (k, f) :: rest => if String.eqb k key then Some f else files_get key rest
  end.

(** One row of [results[0].boxes]: the values [box.conf[0]], [box.cls[0]]
    (a class index) and [box.xyxy[0]] hold. *)
Record Box := { conf : float; cls : Z; xyxy : list float }.

(** An image as the detector draws it (a NumPy array), kept abstract. *)
Definition ndarray := list (list Z).

(** [results[0]] of a model call: the boxes ([None] when the detector gives
    none) and what [plot()] does. *)
Record Results := { boxes : option (list Box); plot : outcome ndarray }.

(** What the world outside the handler does during one request: the clock,
    the disk on [file.save], the detector, and [cv2.imwrite], which returns
    the bytes it wrote, [None] for a write it reports as failed ([False]),
    or raises. *)
Record Env := {
  now : datetime;
  file_save : string -> outcome unit;
  model : string -> float -> float -> outcome Results;
  cv2_imwrite : string -> ndarray -> outcome (option bytes)
}.

(** The state a request can change: the files on disk, and the calls made
    to the detector (image path, [conf], [iou]). *)
Record World := {
  fs : gmap string bytes;
  model_calls : list (string * float * float)
}.

(** ** Computations that read and write the world, and may raise *)

Definition M (A : Type) : Type := World -> outcome A * World.

Definition ret {A : Type} (a : A) : M A := fun w => (Return a, w).

Definition throw {A : Type} (o : outcome A) : M A := fun w => (o, w).

Definition bind {A B : Type} (m : M A) (k : A -> M B) : M B :=
  fun w =>
    match m w with
    | (Return a, w') => k a w'
    | (Raise e, w') => (Raise e, w')
    end.

(** [try: m  except Exception as e: ...], with the handler left to the
    caller: the exception becomes a value. Every [Raise] is of class
    [Exception] (see [outcome]), so every [Raise] is caught. *)
Definition try_except {A : Type} (m : M A) : M (outcome A) :=
  fun w => let '(o, w') := m w in (Return o, w').

Notation "'let*' x ':=' m 'in' k" := (bind m (fun x => k))
  (at level 10, x pattern, m at level 100, k at level 200).

Definition write_file (path : string) (data : bytes) : M unit :=
  fun w => (Return tt, {| fs := <[path := data]> (fs w);
                          model_calls := model_calls w |}).

Definition read_file (path : string) : M (option bytes) :=
  fun w => (Return (fs w !! path), w).

Definition log_model_call (path : string) (c i : float) : M unit :=
  fun w => (Return tt, {| fs := fs w;
                          model_calls := model_calls w ++ [(path, c, i)] |}).

(** ** The upload handler *)

Definition UPLOAD_FOLDER : string := "uploads".
Definition RESULTS_FOLDER : string := "results".

(** [jsonify({'success': False, 'error': message}), code]. *)
Definition error_response (code : Z) (message : string) : Response :=
  {| status := code;
     body := [("success", JBool false); ("error", JStr message)] |}.

(** The dictionary built for one box. *)
Definition detection_of_box (box : Box) : json :=
  JDict [("confidence", JFloat (conf box));
         ("class_id", JInt (cls box));
         ("bbox", JList (map JFloat (xyxy box)))].

(** [FileStorage.__bool__]: a part is true when it has a file name. *)
Definition file_truthy (file : FileStorage) : bool :=
  negb (String.eqb (filename file) "").

Section Pipeline.

(** [werkzeug.utils.secure_filename] and [base64.b64encode(..).decode()],
    library functions the handler calls. *)
Variable secure_filename : string -> string.
Variable b64encode : bytes -> string.

(** [encode_image_to_base64]: [None] when the file cannot be read. *)
Definition encode_image_to_base64 (image_path : string) : M (option string) :=
  let* data := read_file image_path in
  ret (option_map b64encode data).

(** The name an accepted upload is stored under. *)
Definition filename_with_timestamp (env : Env) (file : FileStorage) : string :=
  let filename := secure_filename (filename file) in
  let timestamp := strftime (now env) "%Y%m%d_%H%M%S_%f" in
  timestamp ++ "_" ++ filename.

(** The name the annotated image of a stored upload is saved under. *)
Definition result_filename (stored_name : string) : string :=
  let '(name, ext) := splitext stored_name in
  "detected_" ++ name ++ ".jpg".

(** [file.save(filepath)]. A save that raises is taken to fail before it
    writes (the destination cannot be opened); what a save that fails in
    the middle of the copy leaves under [filepath] is not modelled, and the
    property stated for a failed save leaves that path out. *)
Definition save (env : Env) (file : FileStorage) (filepath : string) : M unit :=
  let* _ := throw (file_save env filepath) in
  write_file filepath (stream file).

(** [cv2.imwrite(result_path, result_img_np)]. *)
Definition imwrite (env : Env) (result_path : string) (img : ndarray) : M bool :=
  let* written := throw (cv2_imwrite env result_path img) in
  match written with
  | Some data => let* _ := write_file result_path data in ret true
  | None => ret false
  end.

(** The body of the second [try] of [upload_file]: inference, the annotated
    image, the detections and the response. *)
Definition detect (env : Env) (stored_name filepath : string) : M Response :=
  let* _ := log_model_call filepath 0.25 0.7 in
  let* results := throw (model env filepath 0.25 0.7) in
  let* result_img_np := throw (plot results) in
  let result_path := os_path_join RESULTS_FOLDER (result_filename stored_name) in
  let* _ := imwrite env result_path result_img_np in
  let detections :=
    match boxes results with
    | Some bs => map detection_of_box bs
    | None => []
    end in
  let* original_b64 := encode_image_to_base64 filepath in
  let* result_b64 := encode_image_to_base64 result_path in
  match original_b64, result_b64 with
  | Some o, Some r =>
      ret {| status := 200;
             body := [("success", JBool true);
                      ("original_image", JStr o);
                      ("result_image", JStr r);
                      ("detections", JList detections);
                      ("detection_count", JInt (Z.of_nat (length detections)));
                      ("filename", JStr stored_name)] |}
  | _, _ => ret (error_response 500 "Failed to encode images to base64.")
  end.

(** [upload_file], the handler of [POST /upload]. [MODEL_LOADED] is the
    flag set once when the module is loaded. *)
Definition upload_file (MODEL_LOADED : bool) (env : Env) (request : Request)
  : M Response :=
  if negb MODEL_LOADED then
    ret (error_response 500 "AI model not loaded. System is offline.")
  else
    match files_get "file" (files request) with
    | None =>
        ret (error_response 400
               "No file part in the request. Please select an image.")
    | Some file =>
        if String.eqb (filename file) "" then
          ret (error_response 400
                 "No selected file. Please choose an image to upload.")
        else
          let* allowed :=
            (if file_truthy file then throw (allowed_file (filename file))
             else ret false) in
          if allowed : bool then
            let stored_name := filename_with_timestamp env file in
            let filepath := os_path_join UPLOAD_FOLDER stored_name in
            let* saved := try_except (save env file filepath) in
            match saved with
            | Raise e =>
                ret (error_response 500
                       ("Failed to save uploaded file: " ++ e))
            | Return _ =>
                let* detected := try_except (detect env stored_name filepath) in
                match detected with
                | Return response => ret response
                | Raise e =>
                    ret (error_response 500
                           ("Detection process failed: " ++ e ++
                            ". Please try another image."))
                end
            end
          else
            ret (error_response 400
                   "Invalid file type. Please upload a supported image format.")
    end.

End Pipeline.

(** ** What the specification calls an accepted or a rejected upload *)

(** An upload passes validation when the request has a part named [file]
    whose name [allowed_file] accepts. *)
Definition accepted (request : Request) (file : FileStorage) : Prop :=
  files_get "file" (files request) = Some file /\
  allowed_file (filename file) = Return true.

(** The three client input errors and the message each is answered with. *)
Inductive rejected (request : Request) : string -> Prop :=
| MissingFilePart :
    files_get "file" (files request) = None ->
    rejected request "No file part in the request. Please select an image."
| EmptyFilename file :
    files_get "file" (files request) = Some file ->
    filename file = "" ->
    rejected request "No selected file. Please choose an image to upload."
| UnsupportedExtension file :
    files_get "file" (files request) = Some file ->
    filename file <> "" ->
    allowed_file (filename file) = Return false ->
    rejected request
      "Invalid file type. Please upload a supported image format.".

(** The boxes of a result, none when the detector gives [None]. *)
Definition boxes_of (results : Results) : list Box :=
  match boxes results with
  | Some bs => bs
  | None => []
  end.

(** The body of a successful response as the specification gives it: the
    two encoded images, the detector's boxes in order, their number, and
    the stored name. *)
Definition success_body (original_b64 result_b64 : string)
    (found : list Box) (name : string) : list (string * json) :=
  [("success", JBool true);
   ("original_image", JStr original_b64);
   ("result_image", JStr result_b64);
   ("detections", JList (map detection_of_box found));
   ("detection_count", JInt (Z.of_nat (length found)));
   ("filename", JStr name)].

(** What a client reads back from one entry of [detections], and from the
    whole list: the box it stands for, when the entry has the three fields. *)
Definition read_float (j : json) : option float :=
  match j with
  | JFloat x => Some x
  | _ => None
  end.

Definition read_detection (j : json) : option Box :=
  match j with
  | JDict [(k1, JFloat c); (k2, JInt k); (k3, JList coords)] =>
      if (String.eqb k1 "confidence" && String.eqb k2 "class_id" &&
          String.eqb k3 "bbox")%bool
      then match mapM read_float coords with
           | Some xs => Some {| conf := c; cls := k; xyxy := xs |}
           | None => None
           end
      else None
  | _ => None
  end.

(** ** Sample runs *)

Module Sample.

(** On a name made of ASCII letters, digits, dots and underscores that
    neither starts nor ends with a dot or an underscore, [secure_filename]
    returns the name as it is. *)
Definition secure_filename (name : string) : string := name.

(** A stand-in for base64: the sample runs do not depend on the encoding. *)
Definition b64encode (data : bytes) : string := string_of_list_byte data.

Definition instant : datetime :=
  {| year := 2024; month := 3; day := 9;
     hour := 14; minute := 5; second := 7; microsecond := 1234 |}.

Definition next_instant : datetime :=
  {| year := 2024; month := 3; day := 9;
     hour := 14; minute := 5; second := 7; microsecond := 1235 |}.

Definition one_box : Box :=
  {| conf := 0.9; cls := 0; xyxy := [10; 20; 110; 220]%float |}.

(** A healthy environment: the disk accepts the file, the detector finds
    one aircraft, the annotated image is written. *)
Definition healthy : Env :=
  {| now := instant;
     file_save := fun _ => Return tt;
     model := fun _ _ _ =>
       Return {| boxes := Some [one_box]; plot := Return [[0; 0]; [0; 255]] |};
     cv2_imwrite := fun _ _ => Return (Some [Byte.xff; Byte.xd8]) |}.

(** The same, one microsecond later. *)
Definition healthy_later : Env :=
  {| now := next_instant;
     file_save := file_save healthy;
     model := model healthy;
     cv2_imwrite := cv2_imwrite healthy |}.

(** The same, with a detector that fails on the image. *)
Definition failing_inference : Env :=
  {| now := instant;
     file_save := fun _ => Return tt;
     model := fun _ _ _ => Raise "cannot identify image file";
     cv2_imwrite := fun _ _ => Return (Some [Byte.xff; Byte.xd8]) |}.

Definition empty_world : World := {| fs := ∅; model_calls := [] |}.

Definition scan_a : FileStorage :=
  {| filename := "scan.png"; stream := [Byte.x01] |}.

Definition scan_b : FileStorage :=
  {| filename := "scan.png"; stream := [Byte.x02] |}.

Definition upload_of (file : FileStorage) : Request :=
  {| files := [("file", file)] |}.

Definition no_file_part : Request := {| files := [] |}.

Definition gif_upload : Request :=
  upload_of {| filename := "x.gif"; stream := [Byte.x47] |}.

End Sample.

(** ** Failures inside the detection block *)

(** The three calls of the second [try] of [upload_file] that can raise:
    the detector, [plot()] and [cv2.imwrite]. *)
Inductive detection_raises (env : Env) (filepath result_path : string)
  : string -> Prop :=
| ModelRaises e :
    model env filepath 0.25 0.7 = Raise e ->
    detection_raises env filepath result_path e
| PlotRaises results e :
    model env filepath 0.25 0.7 = Return results ->
    plot results = Raise e ->
    detection_raises env filepath result_path e
| ImwriteRaises results img e :
    model env filepath 0.25 0.7 = Return results ->
    plot results = Return img ->
    cv2_imwrite env result_path img = Raise e ->
    detection_raises env filepath result_path e.

(** ** The page script: what it does with the answer of [/upload] *)

Module Client.

(** [obj[key]] on a parsed JSON object; [None] is [undefined]. Of repeated
    keys [JSON.parse] keeps the last. *)
Fixpoint get (key : string) (obj : list (string * json)) : option json :=
  match obj with
  | [] => None
  | (k, v) :: rest =>
      match get key rest with
      | Some v' => Some v'
      | None => if String.eqb k key then Some v else None
      end
  end.

(** JavaScript's [ToBoolean]. *)
Definition truthy (v : option json) : bool :=
  match v with
  | None => false
  | Some (JBool b) => b
  | Some (JInt n) => negb (n =? 0)
  | Some (JFloat x) => negb (PrimFloat.eqb x 0 || negb (PrimFloat.eqb x x))
  | Some (JStr s) => negb (String.eqb s "")
  | Some (JList _) => true
  | Some (JDict _) => true
  end.

(** [v || fallback] used as a message: a non-empty string stands for
    itself, a falsy value gives the fallback. A truthy value that is not a
    string is outside this embedding ([None]). *)
Definition message_or (v : option json) (fallback : string) : option string :=
  if truthy v then
    match v with
    | Some (JStr s) => Some s
    | _ => None
    end
  else Some fallback.

(** [response.ok]: a status from 200 to 299. *)
Definition response_ok (response : Response) : bool :=
  (200 <=? status response) && (status response <=? 299).

(** What the promise chain of [handleFile] ends with: a call of
    [showResults(data, ..)] or a call of [showError(message)]. *)
Inductive Action :=
| ShowResults (data : list (string * json))
| ShowError (message : string).

(** The [.catch] handler. *)
Definition on_rejection (message : string) : Action :=
  ShowError ("Network error or processing failed: " ++ message).

(** The chain [fetch(..).then(..).then(..).catch(..)] of [handleFile],
    given what [fetch] produced: a response whose body parses to a JSON
    object, or a rejection carrying [error.message].
<<
    .then(response => {
        if (!response.ok) {
            return response.json().then(errorData => {
                throw new Error(errorData.error ||
                    `Server responded with status ${response.status}`);
            });
        }
        return response.json();
    })
    .then(data => {
        ...
        if (data.success) { ...; showResults(data, Date.now() - startTime); }
        else { showError(data.error ||
                   'An unknown error occurred during processing.'); }
    })
    .catch(error => { ...
        showError('Network error or processing failed: ' + error.message);
    });
>> *)
Definition on_fetch (fetched : outcome Response) : option Action :=
  match fetched with
  | Raise message => Some (on_rejection message)
  | Return response =>
      if negb (response_ok response) then
        option_map on_rejection
          (message_or (get "error" (body response))
             ("Server responded with status " ++
              DecimalString.NilZero.string_of_int (Z.to_int (status response))))
      else if truthy (get "success" (body response)) then
        Some (ShowResults (body response))
      else
        option_map ShowError
          (message_or (get "error" (body response))
             "An unknown error occurred during processing.")
  end.

(** [showError]: the text put into the error box. *)
Definition showError (message : string) : string := "ERROR: " ++ message.

(** What [showResults] puts on the page. [avgConfidence] is the number
    whose percentage the page prints; the processing time, which depends on
    the clock, is left out. *)
Record ResultsView := {
  originalImage_src : string;
  resultImage_src : string;
  currentOriginalFileName : string;
  currentResultFileName : string;
  detectionCount : Z;
  avgConfidence : float;
  threatLevel : Page.ThreatLevel
}.

Definition get_string (key : string) (obj : list (string * json))
  : option string :=
  match get key obj with
  | Some (JStr s) => Some s
  | _ => None
  end.

(** [det.confidence] of one entry of [data.detections]. *)
Definition confidence_of (det : json) : option float :=
  match det with
  | JDict fields =>
      match get "confidence" fields with
      | Some (JFloat x) => Some x
      | _ => None
      end
  | _ => None
  end.

(** [showResults(data, ..)] on data of the shape the handler sends:
    strings for the images and the file name, an integer count, a list of
    objects with a numeric [confidence]. On other data the script is not
    modelled ([None]). *)
Definition showResults (data : list (string * json)) : option ResultsView :=
  match get_string "original_image" data, get_string "result_image" data,
        get_string "filename" data, get "detection_count" data,
        get "detections" data with
  | Some original, Some result, Some name, Some (JInt count),
    Some (JList detections) =>
      match mapM confidence_of detections with
      | Some confidences =>
          Some {| originalImage_src := "data:image/jpeg;base64," ++ original;
                  resultImage_src := "data:image/jpeg;base64," ++ result;
                  currentOriginalFileName := "original_" ++ name;
                  currentResultFileName := "detected_" ++ name;
                  detectionCount := count;
                  avgConfidence := Page.avgConfidence confidences;
                  threatLevel := Page.threatLevel count |}
      | None => None
      end
  | _, _, _, _, _ => None
  end.

End Client.

(** ** Severity of a threat level *)

(** The three levels in the order of their severity. *)
Definition threat_rank (level : Page.ThreatLevel) : Z :=
  match level with
  | Page.LOW => 0
  | Page.MEDIUM => 1
  | Page.HIGH => 2
  end.

(** ** More sample runs *)

Module Cases.

(** The disk refuses the upload. *)
Definition disk_full : Env :=
  {| now := Sample.instant;
     file_save := fun _ => Raise "No space left on device";
     model := model Sample.healthy;
     cv2_imwrite := cv2_imwrite Sample.healthy |}.

(** The detector answers, but the annotated image cannot be drawn. *)
Definition plot_fails : Env :=
  {| now := Sample.instant;
     file_save := fun _ => Return tt;
     model := fun _ _ _ =>
       Return {| boxes := None; plot := Raise "out of memory" |};
     cv2_imwrite := cv2_imwrite Sample.healthy |}.

(** [cv2.imwrite] reports that it wrote nothing. *)
Definition imwrite_false : Env :=
  {| now := Sample.instant;
     file_save := fun _ => Return tt;
     model := model Sample.healthy;
     cv2_imwrite := fun _ _ => Return None |}.

(** A world in which an annotated image of that name is already there. *)
Definition stale_result : World :=
  {| fs := {[ "results/detected_20240309_140507_001234_scan.jpg" :=
              [Byte.x00] ]};
     model_calls := [] |}.

Definition scan_bmp : FileStorage :=
  {| filename := "scan.bmp"; stream := [Byte.x42; Byte.x4d] |}.

End Cases.

(* ===================================================================== *)
(** * Properties                                                          *)
(* ===================================================================== *)

(** ** Strings *)

#[local] Arguments String.append !_ _ / : simpl nomatch.

Lemma append_assoc (a b c : string) : (a ++ b) ++ c = a ++ (b ++ c).
Proof. induction a as [|x a IH]; simpl; [reflexivity | now rewrite IH]. Qed.

Lemma append_nil_r (a : string) : a ++ "" = a.
Proof. induction a as [|x a IH]; simpl; [reflexivity | now rewrite IH]. Qed.

Lemma length_append (a b : string) :
  String.length (a ++ b) = (String.length a + String.length b)%nat.
Proof. induction a as [|x a IH]; simpl; [reflexivity | now rewrite IH]. Qed.

Lemma contains_append (c : ascii) (a b : string) :
  Str.contains c (a ++ b) = (Str.contains c a || Str.contains c b)%bool.
Proof.
  induction a as [|x a IH]; simpl; [reflexivity |].
  destruct (Ascii.eqb x c); [reflexivity | exact IH].
Qed.

(** Two ways of cutting one string after prefixes of the same length
    agree. *)
Lemma append_inj_length (a a' b b' : string) :
  String.length a = String.length a' -> a ++ b = a' ++ b' -> a = a' /\ b = b'.
Proof.
  revert a'; induction a as [|x a IH]; intros [|x' a'] Hlen Heq;
    simpl in *; try discriminate.
  - auto.
  - injection Heq as -> Heq. injection Hlen as Hlen.
    destruct (IH _ Hlen Heq) as [-> ->]. auto.
Qed.

(** ** [rsplit] at the last separator *)

Lemma rsplit_once_none (c : ascii) (s : string) :
  Str.rsplit_once c s = None <-> Str.contains c s = false.
Proof.
  induction s as [|a s IH]; simpl; [tauto |].
  destruct (Str.rsplit_once c s) as [[l r]|].
  - destruct (Str.contains c s).
    + destruct (Ascii.eqb a c); split; discriminate.
    + destruct IH as [_ IH]. discriminate (IH eq_refl).
  - destruct IH as [IH _]. rewrite (IH eq_refl).
    destruct (Ascii.eqb a c); split; intros; congruence.
Qed.

Lemma rsplit_once_some (c : ascii) (s l r : string) :
  Str.rsplit_once c s = Some (l, r) <->
  s = l ++ String c r /\ Str.contains c r = false.
Proof.
  revert l r; induction s as [|a s IH]; intros l r; simpl.
  - split; [discriminate |]. intros [H _]. destruct l; discriminate.
  - destruct (Str.rsplit_once c s) as [[l0 r0]|] eqn:E.
    + destruct (proj1 (IH l0 r0) eq_refl) as [Hs Hr0].
      split.
      * intros [= <- <-]. split; [now rewrite Hs | exact Hr0].
      * intros [Hs' Hr]. destruct l as [|x l]; simpl in Hs'.
        -- injection Hs' as -> ->.
           apply rsplit_once_none in Hr. congruence.
        -- injection Hs' as -> Hs'.
           pose proof (proj2 (IH l r) (conj Hs' Hr)) as Hlr.
           now injection Hlr as -> ->.
    + apply rsplit_once_none in E.
      destruct (Ascii.eqb_spec a c) as [->|Hne].
      * split.
        -- intros [= <- <-]. auto.
        -- intros [Hs' Hr]. destruct l as [|x l]; simpl in Hs'.
           ++ now injection Hs' as ->.
           ++ injection Hs' as -> Hs'. rewrite Hs', contains_append in E.
              simpl in E. rewrite Ascii.eqb_refl, orb_true_r in E.
              discriminate.
      * split; [discriminate |]. intros [Hs' Hr].
        destruct l as [|x l]; simpl in Hs'.
        -- injection Hs' as -> ->. congruence.
        -- injection Hs' as -> Hs'. rewrite Hs', contains_append in E.
           simpl in E. rewrite Ascii.eqb_refl, orb_true_r in E.
           discriminate.
Qed.

(** ** The page script *)

(** C1. The threat level is a step function of the detection count with
    breakpoints 2 and 5: a count of 5 or more is HIGH, a count from 2 to 4
    is MEDIUM, a count below 2 is LOW; so 1 is LOW, 2 and 4 are MEDIUM and
    5 is HIGH. *)
Theorem threat_level_three_tiers (n : Z) :
  (5 <= n -> Page.threatLevel n = Page.HIGH) /\
  (2 <= n < 5 -> Page.threatLevel n = Page.MEDIUM) /\
  (n < 2 -> Page.threatLevel n = Page.LOW) /\
  Page.threatLevel 1 = Page.LOW /\
  Page.threatLevel 2 = Page.MEDIUM /\
  Page.threatLevel 4 = Page.MEDIUM /\
  Page.threatLevel 5 = Page.HIGH.
Proof.
  unfold Page.threatLevel.
  repeat split; try reflexivity; intros H;
    destruct (Z.leb_spec 5 n); destruct (Z.leb_spec 2 n);
    reflexivity || lia.
Qed.

Lemma reduce_add_sum_in_order (l : list float) :
  Page.reduce PrimFloat.add 0%float l = Page.sum_in_order (rev l).
Proof.
  unfold Page.reduce. rewrite <- fold_left_rev_right.
  induction (rev l) as [|x r IH]; simpl; [reflexivity | now rewrite IH].
Qed.

(** ** Array lengths as binary64 numbers *)

Lemma digits2_pos_size (m : positive) : digits2_pos m = Pos.size m.
Proof. induction m; simpl; congruence. Qed.

Lemma iter_xO_mul (m k : positive) :
  Z.pos (Pos.iter xO m k) = Z.pos m * 2 ^ Z.pos k.
Proof.
  revert m. induction k using Pos.peano_ind; intros m.
  - simpl. lia.
  - rewrite Pos.iter_succ, Pos2Z.inj_succ, Z.pow_succ_r by lia.
    change (Z.pos (Pos.iter xO m k)~0) with (2 * Z.pos (Pos.iter xO m k)).
    rewrite IHk. lia.
Qed.

Lemma digits2_iter_xO (m k : positive) :
  digits2_pos (Pos.iter xO m k) = (digits2_pos m + k)%positive.
Proof.
  induction k using Pos.peano_ind.
  - simpl. lia.
  - rewrite Pos.iter_succ. simpl. rewrite IHk. lia.
Qed.

Lemma size_below_2p53 (m : positive) :
  Z.pos m < 2 ^ 53 -> Z.pos (Pos.size m) <= 53.
Proof.
  intros H. pose proof (Pos.size_le m) as Hle.
  destruct (Z_le_gt_dec (Z.pos (Pos.size m)) 53) as [|Hgt];
    [assumption | exfalso].
  assert (2 ^ 54 <= 2 ^ Z.pos (Pos.size m)) by (apply Z.pow_le_mono_r; lia).
  assert (Z.pos (2 ^ Pos.size m) = 2 ^ Z.pos (Pos.size m))
    by (now rewrite Pos2Z.inj_pow).
  assert (Z.pos (2 ^ Pos.size m) <= Z.pos (m~0)) by exact Hle.
  change (2 ^ 53) with 9007199254740992 in H.
  change (2 ^ 54) with 18014398509481984 in *. lia.
Qed.

(** Rounding leaves a mantissa that already has its canonical exponent as
    it is. *)
Lemma binary_round_aux_canonical (m : positive) (e : Z) :
  fexp prec emax (Z.pos (digits2_pos m) + e) = e -> e <= emax - prec ->
  binary_round_aux prec emax false (Z.pos m) e loc_Exact =
  S754_finite false m e.
Proof.
  intros Hf He. unfold binary_round_aux, shr_fexp.
  cbn [Zdigits2]. rewrite Hf, Z.sub_diag.
  cbn [shr shr_record_of_loc shr_m loc_of_shr_record round_nearest_even
       Zdigits2].
  rewrite Hf, Z.sub_diag. cbn [shr shr_record_of_loc shr_m].
  destruct (Z.leb_spec e (emax - prec)); [reflexivity | lia].
Qed.

(** Converting an integer below [2^53] to binary64 is exact. *)
Lemma binary_normalize_exact (m : positive) :
  Z.pos m < 2 ^ 53 ->
  exists m' e,
    binary_normalize prec emax (Z.pos m) 0 false = S754_finite false m' e /\
    e <= 0 /\ Z.pos m' = Z.pos m * 2 ^ (- e).
Proof.
  intros H. apply size_below_2p53 in H. rewrite <- digits2_pos_size in H.
  unfold binary_normalize, binary_round.
  set (d := digits2_pos m) in *.
  assert (Hf : fexp prec emax (Z.pos d + 0) = Z.pos d - 53)
    by (unfold fexp, emin, prec, emax; lia).
  rewrite Hf. unfold shl_align.
  destruct (Z.pos d - 53 - 0) as [|p|p] eqn:E; try lia.
  - exists m, 0. rewrite binary_round_aux_canonical.
    + split; [reflexivity | lia].
    + fold d. rewrite Hf. lia.
    + unfold emax, prec. lia.
  - exists (Pos.iter xO m p), (Z.pos d - 53).
    rewrite binary_round_aux_canonical.
    + split; [reflexivity |]. split; [lia |].
      rewrite iter_xO_mul. f_equal. f_equal. lia.
    + rewrite digits2_iter_xO. fold d. unfold fexp, emin, prec, emax. lia.
    + unfold emax, prec. lia.
Qed.

(** [arr.length] as a number is exactly the length of the array. *)
Lemma length_number_is_count {A : Type} (l : list A) :
  l <> [] -> Z.of_nat (length l) < 2 ^ 53 ->
  Page.is_count (Page.length_number l) (length l).
Proof.
  intros Hne Hlen. unfold Page.is_count, Page.length_number.
  rewrite of_uint63_spec, Uint63.of_Z_spec.
  assert (Hw : wB = 9223372036854775808) by reflexivity.
  change (2 ^ 53) with 9007199254740992 in Hlen.
  rewrite Z.mod_small by (rewrite Hw; lia).
  destruct l as [|x l]; [congruence |].
  destruct (Z.of_nat (length (x :: l))) as [|m|m] eqn:E;
    [simpl length in E; lia | | lia].
  apply binary_normalize_exact. exact Hlen.
Qed.

(** C3. The average confidence of no detections is 0; of a non-empty list
    it is the arithmetic mean of the confidences: their sum, taken in list
    order in binary64 arithmetic, divided by the binary64 number whose
    value is exactly the number of confidences (an array is shorter than
    2^53). The average of 0.9 and 0.5 is 0.7; of 0.3 alone, 0.3; of 0.25,
    0.5 and 0.75, 0.5. *)
Theorem average_confidence_is_mean :
  Page.avgConfidence [] = 0%float /\
  (forall l : list float,
     l <> [] -> Z.of_nat (length l) < 2 ^ 53 ->
     Page.is_arithmetic_mean l (Page.avgConfidence l)) /\
  Page.avgConfidence [0.9; 0.5]%float = 0.7%float /\
  Page.avgConfidence [0.3]%float = 0.3%float /\
  Page.avgConfidence [0.25; 0.5; 0.75]%float = 0.5%float.
Proof.
  split; [reflexivity |].
  split; [| repeat split; vm_compute; reflexivity].
  intros l Hl Hlen. exists (Page.length_number l).
  split; [now apply length_number_is_count |].
  unfold Page.avgConfidence. rewrite reduce_add_sum_in_order.
  destruct l as [|x l]; [congruence |].
  destruct (Z.ltb_spec 0 (Z.of_nat (length (x :: l)))) as [_|H];
    [reflexivity | simpl length in H; lia].
Qed.

(** ** Upload validation *)

Lemma allowed_file_eq (f : string) :
  allowed_file f =
  Return (match Str.rsplit_once "." f with
          | Some (_, ext) => bool_decide (Str.lower ext ∈ ALLOWED_EXTENSIONS)
          | None => false
          end).
Proof.
  unfold allowed_file. simpl Str.rsplit.
  destruct (Str.rsplit_once "." f) as [[l r]|] eqn:E.
  - destruct (Str.contains "." f) eqn:C.
    + reflexivity.
    + apply rsplit_once_none in C. congruence.
  - apply rsplit_once_none in E. now rewrite E.
Qed.

(** C2. A file name is accepted exactly when it has a ['.'] and the
    lower-cased suffix after its last ['.'] is one of png, jpg, jpeg, bmp,
    tiff, tif; the check always answers; "x.PNG" is accepted, "x" and
    "x.gif" are not. *)
Theorem allowed_file_iff_extension (f : string) :
  (allowed_file f = Return true <->
   exists ext, has_extension f ext /\ Str.lower ext ∈ ALLOWED_EXTENSIONS) /\
  (allowed_file f = Return true \/ allowed_file f = Return false) /\
  allowed_file "x.PNG" = Return true /\
  allowed_file "x" = Return false /\
  allowed_file "x.gif" = Return false.
Proof.
  split; [| split; [| repeat split; vm_compute; reflexivity]].
  - rewrite allowed_file_eq. split.
    + destruct (Str.rsplit_once "." f) as [[l r]|] eqn:E; [| discriminate].
      intros [= H]. apply bool_decide_eq_true in H.
      apply rsplit_once_some in E as [Hf Hr].
      exists r. split; [exists l; split; assumption | exact H].
    + intros (ext & (stem & Hf & Hext) & Hin).
      assert (E : Str.rsplit_once "." f = Some (stem, ext))
        by (apply rsplit_once_some; split; assumption).
      rewrite E. f_equal. now apply bool_decide_eq_true.
  - rewrite allowed_file_eq.
    destruct (Str.rsplit_once "." f) as [[l r]|]; [| now right].
    destruct (bool_decide _); [now left | now right].
Qed.

(** ** Decimal fields of a time stamp *)

Lemma digit_inj (n m : N) : digit n = digit m -> (n mod 10 = m mod 10)%N.
Proof.
  unfold digit. intros H.
  assert (Hn : (n mod 10 < 10)%N) by (apply N.mod_upper_bound; discriminate).
  assert (Hm : (m mod 10 < 10)%N) by (apply N.mod_upper_bound; discriminate).
  apply (f_equal N_of_ascii) in H.
  rewrite !N_ascii_embedding in H by lia.
  now apply N.add_cancel_l in H.
Qed.

Lemma digit_not (c : ascii) (n : N) :
  (N_of_ascii c < 48)%N -> Ascii.eqb (digit n) c = false.
Proof.
  intros Hc. apply Ascii.eqb_neq. intros H.
  assert (Hn : (n mod 10 < 10)%N) by (apply N.mod_upper_bound; discriminate).
  apply (f_equal N_of_ascii) in H. unfold digit in H.
  rewrite N_ascii_embedding in H by lia.
  revert H Hn Hc. generalize (n mod 10)%N (N_of_ascii c). lia.
Qed.

Lemma length_zpad (w : nat) (n : N) : String.length (zpad w n) = w.
Proof.
  revert n; induction w as [|w IH]; intros n; simpl; [reflexivity |].
  rewrite length_append, IH. simpl. lia.
Qed.

Lemma zpad_inj (w : nat) (n m : N) :
  (n < 10 ^ N.of_nat w)%N -> (m < 10 ^ N.of_nat w)%N ->
  zpad w n = zpad w m -> n = m.
Proof.
  revert n m; induction w as [|w IH]; intros n m Hn Hm H.
  - simpl in Hn, Hm. lia.
  - rewrite Nat2N.inj_succ, N.pow_succ_r' in Hn, Hm.
    simpl in H.
    apply append_inj_length in H as [H1 H2];
      [| now rewrite !length_zpad].
    injection H2 as H2. apply digit_inj in H2.
    assert (Hq : (n / 10 = m / 10)%N).
    { apply IH; [| | exact H1];
        apply N.Div0.div_lt_upper_bound; lia. }
    rewrite (N.div_mod n 10), (N.div_mod m 10) by discriminate. lia.
Qed.

Lemma contains_zpad (c : ascii) (w : nat) (n : N) :
  (N_of_ascii c < 48)%N -> Str.contains c (zpad w n) = false.
Proof.
  intros Hc. revert n; induction w as [|w IH]; intros n; simpl;
    [reflexivity |].
  rewrite contains_append, IH. simpl. now rewrite digit_not.
Qed.

(** ** The time stamp of a stored name *)

Lemma strftime_stamp (dt : datetime) :
  strftime dt "%Y%m%d_%H%M%S_%f" =
  zpad 4 (year dt) ++ zpad 2 (month dt) ++ zpad 2 (day dt) ++ "_" ++
  zpad 2 (hour dt) ++ zpad 2 (minute dt) ++ zpad 2 (second dt) ++ "_" ++
  zpad 6 (microsecond dt).
Proof. reflexivity. Qed.

Lemma length_strftime_stamp (dt : datetime) :
  String.length (strftime dt "%Y%m%d_%H%M%S_%f") = 22%nat.
Proof.
  rewrite strftime_stamp.
  repeat (rewrite length_append || rewrite length_zpad). reflexivity.
Qed.

Lemma contains_strftime_stamp (c : ascii) (dt : datetime) :
  (N_of_ascii c < 48)%N ->
  Str.contains c (strftime dt "%Y%m%d_%H%M%S_%f") = false.
Proof.
  intros Hc. rewrite strftime_stamp.
  repeat (rewrite contains_append || rewrite (contains_zpad c) by exact Hc).
  assert (Hne : Ascii.eqb "_" c = false).
  { apply Ascii.eqb_neq. intros <-. vm_compute in Hc. discriminate. }
  change (Str.contains c "_") with (if Ascii.eqb "_" c then true else false).
  now rewrite Hne.
Qed.

Ltac split_fields H :=
  repeat match type of H with
    | zpad ?w _ ++ _ = zpad ?w _ ++ _ =>
        let H1 := fresh "Hfield" in
        apply append_inj_length in H as [H1 H];
        [| now rewrite !length_zpad]
    | String.append (String ?c EmptyString) ?x =
      String.append (String ?c EmptyString) ?y =>
        apply (append_inj_length (String c EmptyString) _ x y eq_refl) in H
          as [_ H]
    end.

(** At microsecond resolution the stamp determines the instant. *)
Lemma strftime_stamp_inj (dt1 dt2 : datetime) :
  datetime_ok dt1 -> datetime_ok dt2 ->
  strftime dt1 "%Y%m%d_%H%M%S_%f" = strftime dt2 "%Y%m%d_%H%M%S_%f" ->
  dt1 = dt2.
Proof.
  intros (Hy1 & Hm1 & Hd1 & HH1 & HM1 & HS1 & Hf1)
         (Hy2 & Hm2 & Hd2 & HH2 & HM2 & HS2 & Hf2) H.
  rewrite !strftime_stamp in H.
  split_fields H.
  repeat match goal with
    | Hz : zpad _ _ = zpad _ _ |- _ =>
        apply zpad_inj in Hz; [| simpl; lia | simpl; lia]
    end.
  destruct dt1, dt2; simpl in *. congruence.
Qed.

(** ** Slices and [rfind] *)

Lemma take_append_length (a b : string) : Str.take (String.length a) (a ++ b) = a.
Proof. induction a as [|x a IH]; simpl; [now destruct b | now rewrite IH]. Qed.

Lemma drop_append_length (a b : string) : Str.drop (String.length a) (a ++ b) = b.
Proof. induction a as [|x a IH]; simpl; [now destruct b | exact IH]. Qed.

Lemma take_drop (n : nat) (s : string) : Str.take n s ++ Str.drop n s = s.
Proof.
  revert s; induction n as [|n IH]; intros [|a s]; simpl; try reflexivity.
  now rewrite IH.
Qed.

(** [rfind] is the length of the part [rsplit_once] leaves on the left. *)
Lemma rfind_rsplit_once (c : ascii) (s : string) :
  Str.rfind c s =
  match Str.rsplit_once c s with
  | Some (l, _) => Z.of_nat (String.length l)
  | None => -1
  end.
Proof.
  induction s as [|a s IH]; simpl; [reflexivity |].
  rewrite IH. destruct (Str.rsplit_once c s) as [[l r]|].
  - destruct (Z.leb_spec 0 (Z.of_nat (String.length l))); simpl; lia.
  - simpl. now destruct (Ascii.eqb a c).
Qed.

Lemma rfind_spec (c : ascii) (s : string) :
  (Str.rfind c s = -1 /\ Str.contains c s = false) \/
  (exists l r, s = l ++ String c r /\ Str.contains c r = false /\
               Str.rfind c s = Z.of_nat (String.length l)).
Proof.
  rewrite rfind_rsplit_once.
  destruct (Str.rsplit_once c s) as [[l r]|] eqn:E.
  - right. exists l, r. apply rsplit_once_some in E as [Hs Hr]. auto.
  - left. split; [reflexivity | now apply rsplit_once_none].
Qed.

Lemma rfind_lower_bound (c : ascii) (l r : string) :
  Str.contains c r = true ->
  Z.of_nat (String.length l) <= Str.rfind c (l ++ r).
Proof.
  intros Hr. destruct (rfind_spec c (l ++ r)) as [[_ H] | (l' & r' & Hs & Hr' & ->)].
  - rewrite contains_append, Hr, orb_true_r in H. discriminate.
  - apply Nat2Z.inj_le. revert l' Hs.
    induction l as [|x l IH]; intros l' Hs; simpl; [lia |].
    destruct l' as [|x' l']; simpl in Hs.
    + injection Hs as _ Hs. rewrite <- Hs, contains_append, Hr, orb_true_r in Hr'.
      discriminate.
    + injection Hs as _ Hs. specialize (IH l' Hs). simpl. lia.
Qed.

(** A prefix without the character [c] ends before the last [c]. *)
Lemma prefix_before_char (c : ascii) (a b s e : string) :
  Str.contains c a = false -> a ++ b = s ++ String c e ->
  exists b', s = a ++ b'.
Proof.
  revert s; induction a as [|x a IH]; intros s Ha H; simpl in *.
  - now exists s.
  - destruct (Ascii.eqb_spec x c) as [|Hne]; [discriminate |].
    destruct s as [|y s]; simpl in H; injection H as -> H; [congruence |].
    destruct (IH s Ha H) as [b' ->]. now exists b'.
Qed.

(** ** [os.path.splitext] and [os.path.join] *)

Lemma splitext_scan_result (p : string) (d f steps : nat) (r : string * string) :
  splitext_scan p d f steps = Some r -> r = (Str.take d p, Str.drop d p).
Proof.
  revert f; induction steps as [|k IH]; intros f; simpl; [discriminate |].
  destruct (negb _); [now intros [= <-] | apply IH].
Qed.

(** What [splitext] returns: the two parts make up the path, and the
    extension is empty or a dot followed by neither a dot nor a slash. *)
Lemma splitext_spec (p stem ext : string) :
  splitext p = (stem, ext) ->
  p = stem ++ ext /\
  (ext = "" \/
   exists e, ext = String "." e /\ Str.contains "." e = false /\
             Str.contains "/" e = false).
Proof.
  unfold splitext.
  destruct (Z.ltb_spec (Str.rfind "/" p) (Str.rfind "." p)) as [Hlt|_];
    [| intros [= <- <-]; rewrite append_nil_r; auto].
  destruct (splitext_scan _ _ _ _) as [r|] eqn:E;
    [| intros [= <- <-]; rewrite append_nil_r; auto].
  apply splitext_scan_result in E. subst r. intros [= <- <-].
  split; [now rewrite take_drop |]. right.
  destruct (rfind_spec "." p) as [[H _] | (l & r & Hs & Hr & Hd)].
  - pose proof (rfind_rsplit_once "/" p) as Hsep.
    destruct (Str.rsplit_once "/" p) as [[? ?]|]; lia.
  - rewrite Hd, Nat2Z.id. exists r.
    split; [rewrite Hs; apply drop_append_length | split; [exact Hr |]].
    destruct (Str.contains "/" r) eqn:C; [| reflexivity].
    pose proof (rfind_lower_bound "/" (l ++ ".") r C) as Hb.
    rewrite append_assoc in Hb. simpl in Hb. rewrite <- Hs in Hb.
    rewrite length_append in Hb. simpl in Hb. lia.
Qed.

Lemma splitext_append (p : string) : fst (splitext p) ++ snd (splitext p) = p.
Proof.
  destruct (splitext p) as [stem ext] eqn:E.
  apply splitext_spec in E as [-> _]. reflexivity.
Qed.

(** The stem keeps any prefix of the path that has no dot. *)
Lemma splitext_keeps_prefix (a b stem ext : string) :
  Str.contains "." a = false -> splitext (a ++ b) = (stem, ext) ->
  exists b', stem = a ++ b' /\ b = b' ++ ext.
Proof.
  intros Ha E. apply splitext_spec in E as [Hp [-> | (e & -> & _)]].
  - rewrite append_nil_r in Hp. subst stem. exists b.
    now rewrite append_nil_r.
  - destruct (prefix_before_char _ _ _ _ _ Ha Hp) as [b' ->].
    exists b'. split; [reflexivity |].
    rewrite append_assoc in Hp.
    now apply append_inj_length in Hp as [_ Hp].
Qed.

Lemma startswith_contains (c : ascii) (s : string) :
  Str.contains c s = false -> Str.startswith c s = false.
Proof. destruct s as [|a s]; simpl; [reflexivity |]. now destruct (Ascii.eqb a c). Qed.

Lemma join_folder (folder name : string) :
  folder <> "" -> Str.endswith "/" folder = false ->
  Str.startswith "/" name = false ->
  os_path_join folder name = folder ++ "/" ++ name.
Proof.
  intros Hne He Hs. unfold os_path_join. rewrite Hs, He.
  now destruct folder.
Qed.

(** ** The handler, step by step *)

Section PipelineFacts.

Variable secure_filename : string -> string.
Variable b64encode : bytes -> string.

Abbreviation upload := (upload_file secure_filename b64encode).
Abbreviation stored := (filename_with_timestamp secure_filename).
Abbreviation run_detect := (detect b64encode).

Lemma upload_file_offline (env : Env) (request : Request) (w : World) :
  upload false env request w =
  (Return (error_response 500 "AI model not loaded. System is offline."), w).
Proof. reflexivity. Qed.

Lemma upload_file_rejected (env : Env) (request : Request) (w : World)
    (message : string) :
  rejected request message ->
  upload true env request w = (Return (error_response 400 message), w).
Proof.
  intros [Hf | file Hf Hn | file Hf Hn Ha];
    unfold upload_file; simpl; rewrite Hf; [reflexivity | |].
  - now rewrite Hn.
  - destruct (String.eqb_spec (filename file) ""); [contradiction |].
    unfold bind, file_truthy, throw.
    destruct (String.eqb_spec (filename file) ""); [contradiction |].
    simpl. now rewrite Ha.
Qed.

Lemma upload_file_accepted (env : Env) (request : Request) (file : FileStorage)
    (w : World) :
  accepted request file ->
  upload true env request w =
  let filepath := os_path_join UPLOAD_FOLDER (stored env file) in
  match file_save env filepath with
  | Raise e =>
      (Return (error_response 500 ("Failed to save uploaded file: " ++ e)), w)
  | Return _ =>
      match run_detect env (stored env file) filepath
              {| fs := <[filepath := stream file]> (fs w);
                 model_calls := model_calls w |} with
      | (Return response, w') => (Return response, w')
      | (Raise e, w') =>
          (Return (error_response 500
                     ("Detection process failed: " ++ e ++
                      ". Please try another image.")), w')
      end
  end.
Proof.
  intros [Hf Ha].
  assert (Hn : String.eqb (filename file) "" = false).
  { destruct (String.eqb_spec (filename file) "") as [E|_];
      [rewrite E in Ha; discriminate | reflexivity]. }
  cbv [upload_file bind throw ret try_except save write_file file_truthy negb].
  rewrite Hf, Hn, Ha.
  destruct (file_save env _); [| reflexivity].
  destruct (run_detect _ _ _ _) as [[response|e] w']; reflexivity.
Qed.

Lemma detect_model_raises (env : Env) (name filepath e : string) (w : World) :
  model env filepath 0.25 0.7 = Raise e ->
  run_detect env name filepath w =
  (Raise e, {| fs := fs w;
               model_calls := model_calls w ++ [(filepath, 0.25%float, 0.7%float)] |}).
Proof.
  intros H. unfold detect, bind, log_model_call, throw. now rewrite H.
Qed.

Lemma detect_returns (env : Env) (name filepath : string) (w : World)
    (results : Results) (img : ndarray) (jpeg original : bytes) :
  let result_path := os_path_join RESULTS_FOLDER (result_filename name) in
  model env filepath 0.25 0.7 = Return results ->
  plot results = Return img ->
  cv2_imwrite env result_path img = Return (Some jpeg) ->
  fs w !! filepath = Some original ->
  filepath <> result_path ->
  run_detect env name filepath w =
  (Return {| status := 200;
             body := success_body (b64encode original) (b64encode jpeg)
                       (boxes_of results) name |},
   {| fs := <[result_path := jpeg]> (fs w);
      model_calls := model_calls w ++ [(filepath, 0.25%float, 0.7%float)] |}).
Proof.
  intros result_path Hm Hp Hi Ho Hne.
  cbv [detect bind throw ret log_model_call imwrite write_file
       encode_image_to_base64 read_file].
  rewrite Hm, Hp. fold result_path. rewrite Hi. cbn [fs model_calls].
  rewrite lookup_insert_ne by congruence. rewrite Ho, lookup_insert_eq.
  unfold success_body, boxes_of. cbn [option_map].
  destruct (boxes results); rewrite ?length_map; reflexivity.
Qed.

Lemma detect_ok_inv (env : Env) (name filepath : string) (w w' : World)
    (response : Response) :
  run_detect env name filepath w = (Return response, w') ->
  status response = 200 ->
  exists results original_b64 result_b64,
    model env filepath 0.25 0.7 = Return results /\
    body response =
      success_body original_b64 result_b64 (boxes_of results) name.
Proof.
  cbv [detect bind throw ret log_model_call imwrite write_file
       encode_image_to_base64 read_file].
  intros H Hs.
  destruct (model env filepath _ _) as [results|]; [| discriminate].
  exists results.
  repeat (case_match; simplify_eq; cbn in * ); try discriminate.
  all: eexists _, _; split; [reflexivity |];
    unfold success_body, boxes_of;
    match goal with Hb : boxes _ = _ |- _ => rewrite Hb end;
    rewrite ?length_map; reflexivity.
Qed.

Lemma startswith_append (c : ascii) (a b : string) :
  a <> "" -> Str.startswith c (a ++ b) = Str.startswith c a.
Proof. now destruct a. Qed.

Lemma stored_name_no_leading_slash (env : Env) (file : FileStorage) :
  Str.startswith "/" (stored env file) = false.
Proof.
  unfold filename_with_timestamp. rewrite startswith_append.
  - apply startswith_contains, contains_strftime_stamp. reflexivity.
  - intros E. apply (f_equal String.length) in E.
    rewrite length_strftime_stamp in E. discriminate.
Qed.

Lemma upload_path_eq (env : Env) (file : FileStorage) :
  os_path_join UPLOAD_FOLDER (stored env file) = "uploads/" ++ stored env file.
Proof.
  apply join_folder;
    [discriminate | reflexivity | apply stored_name_no_leading_slash].
Qed.

Lemma result_path_eq (name : string) :
  os_path_join RESULTS_FOLDER (result_filename name) =
  "results/" ++ result_filename name.
Proof.
  apply join_folder; [discriminate | reflexivity |].
  unfold result_filename. now destruct (splitext name).
Qed.

Lemma upload_path_not_result_path (a b : string) :
  "uploads/" ++ a <> "results/" ++ b.
Proof.
  intros H. apply append_inj_length in H as [H _]; [discriminate | reflexivity].
Qed.

(** The result name of a stored upload: the stamp and the stem of the
    sanitised name between [detected_] and [.jpg]. *)
Lemma result_filename_of_stored (env : Env) (file : FileStorage) :
  exists stem ext,
    secure_filename (filename file) = stem ++ ext /\
    (ext = "" \/
     exists e, ext = String "." e /\ Str.contains "." e = false /\
               Str.contains "/" e = false) /\
    result_filename (stored env file) =
      "detected_" ++ strftime (now env) "%Y%m%d_%H%M%S_%f" ++ "_" ++
      stem ++ ".jpg".
Proof.
  unfold result_filename, filename_with_timestamp.
  set (ts := strftime (now env) "%Y%m%d_%H%M%S_%f").
  set (name := secure_filename (filename file)).
  change (ts ++ "_" ++ name) with (ts ++ ("_" ++ name)).
  rewrite <- (append_assoc ts "_" name).
  destruct (splitext ((ts ++ "_") ++ name)) as [stem0 ext] eqn:E.
  pose proof (splitext_spec _ _ _ E) as [_ Hext].
  apply splitext_keeps_prefix in E as (stem & -> & Hname).
  - exists stem, ext. split; [exact Hname | split; [exact Hext |]].
    now rewrite !append_assoc.
  - rewrite contains_append. unfold ts.
    rewrite contains_strftime_stamp; reflexivity.
Qed.

End PipelineFacts.

(** ** The handler: answers and effects *)

Section Handler.

Variable secure_filename : string -> string.
Variable b64encode : bytes -> string.

Abbreviation upload := (upload_file secure_filename b64encode).
Abbreviation stored := (filename_with_timestamp secure_filename).

(** C10. While the model is not loaded the availability check comes before
    any validation: every request, whatever its parts, is answered with the
    status 500 and the "AI model not loaded. System is offline." error,
    never with a 400. *)
Theorem offline_check_precedes_validation (env : Env) (request : Request)
    (w : World) :
  exists response,
    upload false env request w = (Return response, w) /\
    response =
      error_response 500 "AI model not loaded. System is offline." /\
    status response = 500 /\
    status response <> 400.
Proof.
  eexists. split; [apply upload_file_offline |].
  repeat split. discriminate.
Qed.

(** C5. While the model is not loaded, a valid upload is answered with the
    status 500 and {success: false, error: "AI model not loaded. System is
    offline."}; the detector is not called and no file is written. *)
Theorem offline_valid_upload_rejected (env : Env) (request : Request)
    (file : FileStorage) (w : World) :
  accepted request file ->
  fst (upload false env request w) =
    Return {| status := 500;
              body := [("success", JBool false);
                       ("error",
                        JStr "AI model not loaded. System is offline.")] |} /\
  model_calls (snd (upload false env request w)) = model_calls w /\
  fs (snd (upload false env request w)) = fs w.
Proof. intros _. rewrite upload_file_offline. repeat split. Qed.

(** C4, as the handler has it. While the model is loaded, a request with no
    file part, with an empty file name or with a file name of a disallowed
    extension is answered with the status 400 and {success: false, error}
    carrying the message of that error; the detector is not called and no
    file is written. *)
Theorem client_error_rejected_when_loaded (env : Env) (request : Request)
    (message : string) (w : World) :
  rejected request message ->
  fst (upload true env request w) =
    Return {| status := 400;
              body := [("success", JBool false); ("error", JStr message)] |} /\
  model_calls (snd (upload true env request w)) = model_calls w /\
  fs (snd (upload true env request w)) = fs w.
Proof.
  intros H. rewrite (upload_file_rejected _ _ _ _ _ _ H). repeat split.
Qed.

End Handler.

(** C5, on a sample: a valid PNG upload while the model is not loaded. *)
Lemma offline_valid_upload_rejected_witness :
  accepted (Sample.upload_of Sample.scan_a) Sample.scan_a /\
  fst (upload_file Sample.secure_filename Sample.b64encode false
         Sample.healthy (Sample.upload_of Sample.scan_a) Sample.empty_world) =
    Return (error_response 500 "AI model not loaded. System is offline.").
Proof.
  assert (H : accepted (Sample.upload_of Sample.scan_a) Sample.scan_a)
    by (split; vm_compute; reflexivity).
  split; [exact H |].
  exact (proj1 (offline_valid_upload_rejected Sample.secure_filename
                  Sample.b64encode Sample.healthy _ _ Sample.empty_world H)).
Defined.

(** C4, on a sample: a GIF upload while the model is loaded. *)
Lemma client_error_rejected_when_loaded_witness :
  rejected Sample.gif_upload
    "Invalid file type. Please upload a supported image format." /\
  fst (upload_file Sample.secure_filename Sample.b64encode true
         Sample.healthy Sample.gif_upload Sample.empty_world) =
    Return (error_response 400
              "Invalid file type. Please upload a supported image format.").
Proof.
  assert (H : rejected Sample.gif_upload
                "Invalid file type. Please upload a supported image format.").
  { eapply UnsupportedExtension;
      [reflexivity | discriminate | vm_compute; reflexivity]. }
  split; [exact H |].
  exact (proj1 (client_error_rejected_when_loaded Sample.secure_filename
                  Sample.b64encode Sample.healthy _ _ Sample.empty_world H)).
Defined.

(** C4 as stated fails: with the model not loaded, a GIF upload, and a
    request without a file part, are answered with 500, not 400. *)
Lemma client_error_while_offline_is_500 :
  rejected Sample.gif_upload
    "Invalid file type. Please upload a supported image format." /\
  rejected Sample.no_file_part
    "No file part in the request. Please select an image." /\
  fst (upload_file Sample.secure_filename Sample.b64encode false
         Sample.healthy Sample.gif_upload Sample.empty_world) =
    Return (error_response 500 "AI model not loaded. System is offline.") /\
  fst (upload_file Sample.secure_filename Sample.b64encode false
         Sample.healthy Sample.no_file_part Sample.empty_world) =
    Return (error_response 500 "AI model not loaded. System is offline.").
Proof.
  split; [| split; [| split; reflexivity]].
  - eapply UnsupportedExtension;
      [reflexivity | discriminate | vm_compute; reflexivity].
  - apply MissingFilePart. reflexivity.
Qed.

(** ** Successful uploads *)

Lemma allowed_file_total (name : string) :
  allowed_file name = Return true \/ allowed_file name = Return false.
Proof.
  rewrite allowed_file_eq.
  destruct (Str.rsplit_once "." name) as [[l r]|]; [| now right].
  destruct (bool_decide _); [now left | now right].
Qed.

(** Validation settles every request: it is rejected with one of the three
    messages, or it carries an accepted file. *)
Lemma validation_decides (request : Request) :
  (exists message, rejected request message) \/
  (exists file, accepted request file).
Proof.
  destruct (files_get "file" (files request)) as [file|] eqn:Hf.
  - destruct (String.eqb_spec (filename file) "") as [Hn|Hn].
    + left. eexists. now apply (EmptyFilename _ file).
    + destruct (allowed_file_total (filename file)) as [Ha|Ha].
      * right. now exists file.
      * left. eexists. now apply (UnsupportedExtension _ file).
  - left. eexists. now apply MissingFilePart.
Qed.

Lemma read_detection_of_box (box : Box) :
  read_detection (detection_of_box box) = Some box.
Proof.
  destruct box as [c k xs]. unfold detection_of_box, read_detection.
  cbn [conf cls xyxy]. rewrite !String.eqb_refl. cbn [andb].
  change (map JFloat xs) with (JFloat <$> xs).
  now rewrite mapM_fmap_Some.
Qed.

(** C6. A successful upload answers with exactly the fields success (true),
    original_image, result_image, detections, detection_count and filename;
    the detections are the detector's boxes in order, each with its
    confidence, class index and box as the detector gave them, so that
    reading the list back gives the detector's boxes; detection_count is
    the length of the list. *)
Theorem success_response_shape (secure_filename : string -> string)
    (b64encode : bytes -> string) (MODEL_LOADED : bool) (env : Env)
    (request : Request) (w w' : World) (response : Response) :
  upload_file secure_filename b64encode MODEL_LOADED env request w =
    (Return response, w') ->
  status response = 200 ->
  exists file results original_b64 result_b64 detections,
    accepted request file /\
    model env
      (os_path_join UPLOAD_FOLDER
         (filename_with_timestamp secure_filename env file))
      0.25 0.7 = Return results /\
    body response =
      [("success", JBool true);
       ("original_image", JStr original_b64);
       ("result_image", JStr result_b64);
       ("detections", JList detections);
       ("detection_count", JInt (Z.of_nat (length detections)));
       ("filename",
        JStr (filename_with_timestamp secure_filename env file))] /\
    detections = map detection_of_box (boxes_of results) /\
    mapM read_detection detections = Some (boxes_of results) /\
    length detections = length (boxes_of results).
Proof.
  intros H Hs. destruct MODEL_LOADED.
  2: { rewrite upload_file_offline in H. injection H as <- _. discriminate. }
  destruct (validation_decides request) as [[message Hr] | [file Ha]].
  { rewrite (upload_file_rejected _ _ _ _ _ _ Hr) in H.
    injection H as <- _. discriminate. }
  rewrite (upload_file_accepted _ _ _ _ _ _ Ha) in H. cbv zeta in H.
  destruct (file_save env _); [| injection H as <- _; discriminate].
  destruct (detect _ _ _ _ _) as [[r|e] w2] eqn:D;
    [| injection H as <- _; discriminate].
  injection H as -> ->.
  apply detect_ok_inv in D as (results & o & rb & Hm & Hb); [| exact Hs].
  exists file, results, o, rb, (map detection_of_box (boxes_of results)).
  split; [exact Ha | split; [exact Hm |]].
  split; [rewrite Hb; unfold success_body; now rewrite length_map |].
  split; [reflexivity |].
  split; [| apply length_map].
  change (map detection_of_box (boxes_of results))
    with (detection_of_box <$> boxes_of results).
  apply mapM_fmap_Some, read_detection_of_box.
Qed.

(** C6, on a sample: a PNG upload on which the detector finds one box. *)
Lemma success_response_shape_witness :
  exists file results original_b64 result_b64 detections,
    accepted (Sample.upload_of Sample.scan_a) file /\
    model Sample.healthy
      (os_path_join UPLOAD_FOLDER
         (filename_with_timestamp Sample.secure_filename Sample.healthy file))
      0.25 0.7 = Return results /\
    [("success", JBool true);
     ("original_image", JStr (Sample.b64encode [Byte.x01]));
     ("result_image", JStr (Sample.b64encode [Byte.xff; Byte.xd8]));
     ("detections", JList [detection_of_box Sample.one_box]);
     ("detection_count", JInt 1);
     ("filename", JStr "20240309_140507_001234_scan.png")] =
      [("success", JBool true);
       ("original_image", JStr original_b64);
       ("result_image", JStr result_b64);
       ("detections", JList detections);
       ("detection_count", JInt (Z.of_nat (length detections)));
       ("filename",
        JStr (filename_with_timestamp Sample.secure_filename
                Sample.healthy file))] /\
    detections = map detection_of_box (boxes_of results) /\
    mapM read_detection detections = Some (boxes_of results) /\
    length detections = length (boxes_of results).
Proof.
  refine (success_response_shape Sample.secure_filename Sample.b64encode true
            Sample.healthy (Sample.upload_of Sample.scan_a) Sample.empty_world
            _ {| status := 200; body := _ |} _ eq_refl).
  vm_compute. reflexivity.
Defined.

(** ** Failed inference *)

(** C7, as the handler has it. When the detector raises on an accepted
    upload that was saved, the answer is the status 500 with exactly
    {success: false, error} where the error carries the detector's message;
    nothing is written to the results directory, but the upload saved
    before the detector ran stays in the uploads directory. *)
Theorem inference_failure_response (secure_filename : string -> string)
    (b64encode : bytes -> string) (env : Env) (request : Request)
    (file : FileStorage) (w : World) (e : string) :
  accepted request file ->
  file_save env
    ("uploads/" ++ filename_with_timestamp secure_filename env file) =
    Return tt ->
  model env
    ("uploads/" ++ filename_with_timestamp secure_filename env file)
    0.25 0.7 = Raise e ->
  upload_file secure_filename b64encode true env request w =
  (Return {| status := 500;
             body := [("success", JBool false);
                      ("error",
                       JStr ("Detection process failed: " ++ e ++
                             ". Please try another image."))] |},
   {| fs := <["uploads/" ++ filename_with_timestamp secure_filename env file
              := stream file]> (fs w);
      model_calls :=
        model_calls w ++
        [("uploads/" ++ filename_with_timestamp secure_filename env file,
          0.25%float, 0.7%float)] |}).
Proof.
  intros Ha Hsave Hmodel.
  rewrite (upload_file_accepted _ _ _ _ _ _ Ha). cbv zeta.
  rewrite upload_path_eq, Hsave.
  now rewrite (detect_model_raises _ _ _ _ _ _ Hmodel).
Qed.

(** C7, on a sample: the detector cannot read the uploaded image. *)
Lemma inference_failure_response_witness :
  fst (upload_file Sample.secure_filename Sample.b64encode true
         Sample.failing_inference (Sample.upload_of Sample.scan_a)
         Sample.empty_world) =
  Return (error_response 500
            "Detection process failed: cannot identify image file. Please try another image.").
Proof.
  rewrite (inference_failure_response Sample.secure_filename Sample.b64encode
             Sample.failing_inference (Sample.upload_of Sample.scan_a)
             Sample.scan_a Sample.empty_world "cannot identify image file").
  - reflexivity.
  - split; vm_compute; reflexivity.
  - reflexivity.
  - reflexivity.
Defined.

(** C7 as stated fails: the failed request leaves state behind. Before it
    the uploads directory has no such file; after it the uploaded bytes are
    stored there. *)
Lemma inference_failure_leaves_upload :
  fst (upload_file Sample.secure_filename Sample.b64encode true
         Sample.failing_inference (Sample.upload_of Sample.scan_a)
         Sample.empty_world) =
    Return (error_response 500
              "Detection process failed: cannot identify image file. Please try another image.") /\
  fs Sample.empty_world !! "uploads/20240309_140507_001234_scan.png" = None /\
  fs (snd (upload_file Sample.secure_filename Sample.b64encode true
             Sample.failing_inference (Sample.upload_of Sample.scan_a)
             Sample.empty_world))
    !! "uploads/20240309_140507_001234_scan.png" = Some [Byte.x01].
Proof. repeat split; vm_compute; reflexivity. Qed.

(** ** Every run of the handler *)

Section Runs.

Variable secure_filename : string -> string.
Variable b64encode : bytes -> string.

Abbreviation upload := (upload_file secure_filename b64encode).
Abbreviation stored := (filename_with_timestamp secure_filename).
Abbreviation upload_path env file := ("uploads/" ++ stored env file).
Abbreviation result_path env file :=
  ("results/" ++ result_filename (stored env file)).

(** What one run of the detection block does, whatever the detector, the
    plot and the image writer do. *)
Lemma detect_run (env : Env) (name filepath : string) (w : World) :
  let rp := os_path_join RESULTS_FOLDER (result_filename name) in
  exists o w',
    detect b64encode env name filepath w = (o, w') /\
    model_calls w' =
      (model_calls w ++ [(filepath, 0.25%float, 0.7%float)])%list /\
    (fs w' = fs w \/
     exists results img jpeg,
       model env filepath 0.25 0.7 = Return results /\
       plot results = Return img /\
       cv2_imwrite env rp img = Return (Some jpeg) /\
       fs w' = <[rp := jpeg]> (fs w)) /\
    match o with
    | Raise e => detection_raises env filepath rp e /\ fs w' = fs w
    | Return r =>
        exists results,
          model env filepath 0.25 0.7 = Return results /\
          ((r = error_response 500 "Failed to encode images to base64." /\
            (fs w' !! filepath = None \/ fs w' !! rp = None)) \/
           (exists original result,
              fs w' !! filepath = Some original /\
              fs w' !! rp = Some result /\
              r = {| status := 200;
                     body := success_body (b64encode original)
                               (b64encode result) (boxes_of results) name |}))
    end.
Proof.
  intros rp.
  cbv [detect bind throw ret log_model_call imwrite write_file
       encode_image_to_base64 read_file].
  fold rp.
  destruct (model env filepath _ _) as [results|e] eqn:Hm.
  2: { eexists _, _. split; [reflexivity |]. cbn.
       repeat split; auto. now apply ModelRaises. }
  destruct (plot results) as [img|e] eqn:Hp.
  2: { eexists _, _. split; [reflexivity |]. cbn.
       repeat split; auto. now apply (PlotRaises _ _ _ results). }
  destruct (cv2_imwrite env rp img) as [[jpeg|]|e] eqn:Hi.
  3: { eexists _, _. split; [reflexivity |]. cbn.
       repeat split; auto. now apply (ImwriteRaises _ _ _ results img). }
  - cbn [fs model_calls].
    destruct (<[rp:=jpeg]> (fs w) !! filepath) as [original|] eqn:Ho;
      destruct (<[rp:=jpeg]> (fs w) !! rp) as [result|] eqn:Hr;
      cbn [option_map];
      (eexists _, _; split; [reflexivity |]; cbn [fs model_calls];
       split; [reflexivity |];
       split; [right; exists results, img, jpeg; auto |];
       exists results; split; [reflexivity |]).
    + right. exists original, result. repeat split; auto.
      unfold success_body, boxes_of.
      destruct (boxes results); now rewrite ?length_map.
    + left. auto.
    + left. auto.
    + left. auto.
  - cbn [fs model_calls].
    destruct (fs w !! filepath) as [original|] eqn:Ho;
      destruct (fs w !! rp) as [result|] eqn:Hr;
      cbn [option_map];
      (eexists _, _; split; [reflexivity |]; cbn [fs model_calls];
       split; [reflexivity |]; split; [now left |];
       exists results; split; [reflexivity |]).
    + right. exists original, result. repeat split; auto.
      unfold success_body, boxes_of.
      destruct (boxes results); now rewrite ?length_map.
    + left. auto.
    + left. auto.
    + left. auto.
Qed.

(** The four ways a run of [upload_file] goes: the model is not loaded,
    the request is rejected, the save fails, or the detection block runs;
    with the answer and the change of the world for each. *)
Lemma upload_run (MODEL_LOADED : bool) (env : Env) (request : Request)
    (w : World) :
  exists response w',
    upload MODEL_LOADED env request w = (Return response, w') /\
    ((MODEL_LOADED = false /\ w' = w /\
      response =
        error_response 500 "AI model not loaded. System is offline.") \/
     (MODEL_LOADED = true /\ w' = w /\
      exists message,
        rejected request message /\
        response = error_response 400 message) \/
     (MODEL_LOADED = true /\ w' = w /\
      exists file e,
        accepted request file /\
        file_save env (upload_path env file) = Raise e /\
        response =
          error_response 500 ("Failed to save uploaded file: " ++ e)) \/
     (MODEL_LOADED = true /\
      exists file,
        accepted request file /\
        file_save env (upload_path env file) = Return tt /\
        model_calls w' =
          (model_calls w ++
           [(upload_path env file, 0.25%float, 0.7%float)])%list /\
        fs w' !! upload_path env file = Some (stream file) /\
        ((exists e,
            detection_raises env (upload_path env file)
              (result_path env file) e /\
            fs w' = <[upload_path env file := stream file]> (fs w) /\
            response =
              error_response 500
                ("Detection process failed: " ++ e ++
                 ". Please try another image.")) \/
         (exists results,
            model env (upload_path env file) 0.25 0.7 = Return results /\
            fs w' = <[upload_path env file := stream file]> (fs w) /\
            fs w !! result_path env file = None /\
            response =
              error_response 500 "Failed to encode images to base64.") \/
         (exists results result,
            model env (upload_path env file) 0.25 0.7 = Return results /\
            (fs w' = <[upload_path env file := stream file]> (fs w) \/
             fs w' = <[result_path env file := result]>
                       (<[upload_path env file := stream file]> (fs w))) /\
            fs w' !! result_path env file = Some result /\
            response =
              {| status := 200;
                 body := success_body (b64encode (stream file))
                           (b64encode result) (boxes_of results)
                           (stored env file) |})))).
Proof.
  destruct MODEL_LOADED.
  2: { eexists _, _. split; [apply upload_file_offline |]. left. auto. }
  destruct (validation_decides request) as [[message Hr] | [file Ha]].
  { eexists _, _. split; [apply (upload_file_rejected _ _ _ _ _ _ Hr) |].
    right; left. eauto. }
  rewrite (upload_file_accepted _ _ _ _ _ _ Ha). cbv zeta.
  rewrite upload_path_eq.
  destruct (file_save env (upload_path env file)) as [[]|e] eqn:Hsave.
  2: { eexists _, _. split; [reflexivity |]. right; right; left.
       repeat split. exists file, e. auto. }
  set (w1 := {| fs := <[upload_path env file := stream file]> (fs w);
                model_calls := model_calls w |}).
  assert (Hne : upload_path env file <> result_path env file)
    by apply upload_path_not_result_path.
  destruct (detect_run env (stored env file) (upload_path env file) w1)
    as (o & w2 & Hd & Hcalls & Hfs & Ho).
  rewrite result_path_eq in Hfs, Ho. rewrite Hd.
  assert (Hup : fs w2 !! upload_path env file = Some (stream file)).
  { destruct Hfs as [-> | (? & ? & ? & _ & _ & _ & ->)]; cbn [fs w1].
    - apply lookup_insert_eq.
    - rewrite lookup_insert_ne by congruence. apply lookup_insert_eq. }
  destruct o as [r|e].
  - exists r, w2. split; [reflexivity |]. right; right; right.
    split; [reflexivity |]. exists file.
    split; [exact Ha |]. split; [exact Hsave |].
    split; [exact Hcalls |]. split; [exact Hup |].
    destruct Ho as (results & Hm & [[-> [Hnone | Hnone]] | Hok]).
    + congruence.
    + right; left. exists results. split; [exact Hm |].
      destruct Hfs as [Hfs | (? & ? & ? & _ & _ & _ & Hfs)];
        rewrite Hfs in Hnone |- *; cbn [fs w1] in *.
      * rewrite lookup_insert_ne in Hnone by congruence. auto.
      * rewrite lookup_insert_eq in Hnone. discriminate.
    + right; right. destruct Hok as (original & result & Ho & Hr & ->).
      assert (original = stream file) as -> by congruence.
      exists results, result. split; [exact Hm |].
      split; [| split; [exact Hr | reflexivity]].
      destruct Hfs as [Hfs | (? & ? & jpeg & _ & _ & _ & Hfs)];
        [left; exact Hfs | right].
      rewrite Hfs in Hr |- *. rewrite lookup_insert_eq in Hr.
      now injection Hr as ->.
  - eexists _, w2. split; [reflexivity |]. right; right; right.
    split; [reflexivity |]. exists file.
    split; [exact Ha |]. split; [exact Hsave |].
    split; [exact Hcalls |]. split; [exact Hup |].
    left. exists e. destruct Ho as [Hraise Hsame].
    split; [exact Hraise |]. split; [rewrite Hsame; reflexivity | reflexivity].
Qed.

End Runs.

(** ** Answers and effects of every run *)

(** X1. On a parsed request, whatever the disk, the detector, the drawing
    and the image writer do among returning and raising an error of class
    [Exception], the handler answers: no such error leaves it. The answer
    is either the status 200 with the six fields of a success, or the
    status 400 or 500 with {success: false, error} and a non-empty
    message. *)
Theorem upload_always_answers (secure_filename : string -> string)
    (b64encode : bytes -> string) (MODEL_LOADED : bool) (env : Env)
    (request : Request) (w : World) :
  exists response w',
    upload_file secure_filename b64encode MODEL_LOADED env request w =
      (Return response, w') /\
    ((status response = 200 /\
      map fst (body response) =
        ["success"; "original_image"; "result_image"; "detections";
         "detection_count"; "filename"] /\
      Client.get "success" (body response) = Some (JBool true)) \/
     (exists message,
        message <> "" /\
        body response =
          [("success", JBool false); ("error", JStr message)] /\
        (status response = 400 \/ status response = 500))).
Proof.
  destruct (upload_run secure_filename b64encode MODEL_LOADED env request w)
    as (response & w' & Hrun & Hcase).
  exists response, w'. split; [exact Hrun |].
  destruct Hcase as
    [(_ & _ & ->) | [(_ & _ & m & Hr & ->) | [(_ & _ & f & e & _ & _ & ->) |
     (_ & f & _ & _ & _ & _ & [(e & _ & _ & ->) | [(r & _ & _ & _ & ->) |
      (r & res & _ & _ & _ & ->)]])]]].
  - right. eexists. split; [| split; [reflexivity | now right]]. discriminate.
  - right. exists m. split; [| split; [reflexivity | now left]].
    destruct Hr; discriminate.
  - right. eexists. split; [| split; [reflexivity | now right]]. discriminate.
  - right. eexists. split; [| split; [reflexivity | now right]]. discriminate.
  - right. eexists. split; [| split; [reflexivity | now right]]. discriminate.
  - left. repeat split.
Qed.

Lemma detect_raises (b64encode : bytes -> string) (env : Env)
    (name filepath e : string) (w : World) :
  detection_raises env filepath
    (os_path_join RESULTS_FOLDER (result_filename name)) e ->
  detect b64encode env name filepath w =
  (Raise e,
   {| fs := fs w;
      model_calls :=
        (model_calls w ++ [(filepath, 0.25%float, 0.7%float)])%list |}).
Proof.
  intros H.
  cbv [detect bind throw ret log_model_call imwrite write_file].
  destruct H as [e Hm | results e Hm Hp | results img e Hm Hp Hi];
    rewrite Hm; [reflexivity | |]; rewrite Hp; [reflexivity |].
  now rewrite Hi.
Qed.

(** X2. When saving the upload raises, the answer is the status 500 with
    "Failed to save uploaded file: " and the cause; the detector is not
    called, and no file other than the one under the upload's own path is
    touched. *)
Theorem save_failure_skips_inference (secure_filename : string -> string)
    (b64encode : bytes -> string) (env : Env) (request : Request)
    (file : FileStorage) (w : World) (e : string) :
  accepted request file ->
  file_save env
    ("uploads/" ++ filename_with_timestamp secure_filename env file) =
    Raise e ->
  fst (upload_file secure_filename b64encode true env request w) =
    Return {| status := 500;
              body := [("success", JBool false);
                       ("error",
                        JStr ("Failed to save uploaded file: " ++ e))] |} /\
  model_calls (snd (upload_file secure_filename b64encode true env request w)) =
    model_calls w /\
  (forall path,
     path <> "uploads/" ++ filename_with_timestamp secure_filename env file ->
     fs (snd (upload_file secure_filename b64encode true env request w))
       !! path = fs w !! path).
Proof.
  intros Ha Hsave.
  rewrite (upload_file_accepted _ _ _ _ _ _ Ha). cbv zeta.
  rewrite upload_path_eq, Hsave. repeat split.
Qed.

(** X2, on a sample: the disk is full. *)
Lemma save_failure_skips_inference_witness :
  fst (upload_file Sample.secure_filename Sample.b64encode true
         Cases.disk_full (Sample.upload_of Sample.scan_a)
         Sample.empty_world) =
  Return (error_response 500
            "Failed to save uploaded file: No space left on device").
Proof.
  apply (save_failure_skips_inference Sample.secure_filename Sample.b64encode
           Cases.disk_full _ Sample.scan_a).
  - split; vm_compute; reflexivity.
  - reflexivity.
Defined.

(** X3. Whichever call of the detection block raises (the detector, the
    drawing of the annotated image or the writing of it), the answer is the
    status 500 with "Detection process failed: ", the cause and
    ". Please try another image."; the detector was called once, the upload
    is on disk and no result file was written. *)
Theorem detection_block_failure (secure_filename : string -> string)
    (b64encode : bytes -> string) (env : Env) (request : Request)
    (file : FileStorage) (w : World) (e : string) :
  accepted request file ->
  file_save env
    ("uploads/" ++ filename_with_timestamp secure_filename env file) =
    Return tt ->
  detection_raises env
    ("uploads/" ++ filename_with_timestamp secure_filename env file)
    ("results/" ++
     result_filename (filename_with_timestamp secure_filename env file)) e ->
  upload_file secure_filename b64encode true env request w =
  (Return {| status := 500;
             body := [("success", JBool false);
                      ("error",
                       JStr ("Detection process failed: " ++ e ++
                             ". Please try another image."))] |},
   {| fs := <["uploads/" ++ filename_with_timestamp secure_filename env file
              := stream file]> (fs w);
      model_calls :=
        (model_calls w ++
         [(("uploads/" ++
            filename_with_timestamp secure_filename env file)%string,
           0.25%float, 0.7%float)])%list |}).
Proof.
  intros Ha Hsave Hraise.
  rewrite (upload_file_accepted _ _ _ _ _ _ Ha). cbv zeta.
  rewrite upload_path_eq, Hsave.
  rewrite <- result_path_eq in Hraise.
  now rewrite (detect_raises _ _ _ _ _ _ Hraise).
Qed.

(** X3, on a sample: drawing the annotated image fails. *)
Lemma detection_block_failure_witness :
  fst (upload_file Sample.secure_filename Sample.b64encode true
         Cases.plot_fails (Sample.upload_of Sample.scan_a)
         Sample.empty_world) =
  Return (error_response 500
            "Detection process failed: out of memory. Please try another image.").
Proof.
  rewrite (detection_block_failure Sample.secure_filename Sample.b64encode
             Cases.plot_fails (Sample.upload_of Sample.scan_a) Sample.scan_a
             Sample.empty_world "out of memory").
  - reflexivity.
  - split; vm_compute; reflexivity.
  - reflexivity.
  - eapply PlotRaises; reflexivity.
Defined.

(** X4. When [cv2.imwrite] reports that it wrote nothing (it returns
    False without raising), the answer depends on what is already at the
    result path: with no file there the answer is the status 500 with
    "Failed to encode images to base64."; with an older file there the
    answer is a success whose result image is that older file. In both
    cases the upload stays on disk and the detector was called once. *)
Theorem imwrite_reports_failure (secure_filename : string -> string)
    (b64encode : bytes -> string) (env : Env) (request : Request)
    (file : FileStorage) (w : World) (results : Results) (img : ndarray) :
  accepted request file ->
  file_save env
    ("uploads/" ++ filename_with_timestamp secure_filename env file) =
    Return tt ->
  model env
    ("uploads/" ++ filename_with_timestamp secure_filename env file)
    0.25 0.7 = Return results ->
  plot results = Return img ->
  cv2_imwrite env
    ("results/" ++
     result_filename (filename_with_timestamp secure_filename env file))
    img = Return None ->
  exists response,
    upload_file secure_filename b64encode true env request w =
    (Return response,
     {| fs := <["uploads/" ++
                filename_with_timestamp secure_filename env file
                := stream file]> (fs w);
        model_calls :=
          (model_calls w ++
           [(("uploads/" ++
              filename_with_timestamp secure_filename env file)%string,
             0.25%float, 0.7%float)])%list |}) /\
    match fs w !! ("results/" ++
                   result_filename
                     (filename_with_timestamp secure_filename env file)) with
    | None =>
        response =
          error_response 500 "Failed to encode images to base64."
    | Some older =>
        status response = 200 /\
        Client.get_string "result_image" (body response) =
          Some (b64encode older) /\
        Client.get_string "original_image" (body response) =
          Some (b64encode (stream file))
    end.
Proof.
  intros Ha Hsave Hm Hp Hi.
  rewrite (upload_file_accepted _ _ _ _ _ _ Ha). cbv zeta.
  rewrite upload_path_eq, Hsave.
  cbv [detect bind throw ret log_model_call imwrite write_file
       encode_image_to_base64 read_file].
  rewrite result_path_eq, Hm, Hp, Hi. cbn [fs model_calls].
  rewrite lookup_insert_eq.
  rewrite lookup_insert_ne by apply upload_path_not_result_path.
  destruct (fs w !! _) as [older|]; cbn [option_map].
  - eexists. split; [reflexivity |]. repeat split.
  - eexists. split; reflexivity.
Qed.

(** X4, on a sample: nothing is written and an older annotated image of
    the same name is on disk; the answer carries the older image. *)
Lemma imwrite_reports_failure_witness :
  exists response,
    fst (upload_file Sample.secure_filename Sample.b64encode true
           Cases.imwrite_false (Sample.upload_of Sample.scan_a)
           Cases.stale_result) = Return response /\
    status response = 200 /\
    Client.get_string "result_image" (body response) =
      Some (Sample.b64encode [Byte.x00]).
Proof.
  destruct (imwrite_reports_failure Sample.secure_filename Sample.b64encode
              Cases.imwrite_false (Sample.upload_of Sample.scan_a)
              Sample.scan_a Cases.stale_result
              {| boxes := Some [Sample.one_box];
                 plot := Return [[0; 0]; [0; 255]] |} [[0; 0]; [0; 255]])
    as (response & Hrun & Hcase).
  - split; vm_compute; reflexivity.
  - reflexivity.
  - reflexivity.
  - reflexivity.
  - reflexivity.
  - exists response. rewrite Hrun. split; [reflexivity |].
    change (fs Cases.stale_result !! _)
      with (Some [Byte.x00] : option bytes) in Hcase.
    destruct Hcase as (Hs & Hr & _). auto.
Defined.

(** X5. A request makes at most one call to the detector. When it makes
    one, the model is loaded, the upload was accepted and saved, the file
    is on disk at the path given to the detector, and the thresholds are
    0.25 for the confidence and 0.7 for the overlap. *)
Theorem detector_called_at_most_once (secure_filename : string -> string)
    (b64encode : bytes -> string) (MODEL_LOADED : bool) (env : Env)
    (request : Request) (w : World) :
  exists response w',
    upload_file secure_filename b64encode MODEL_LOADED env request w =
      (Return response, w') /\
    (model_calls w' = model_calls w \/
     exists file,
       MODEL_LOADED = true /\
       accepted request file /\
       file_save env
         ("uploads/" ++ filename_with_timestamp secure_filename env file) =
         Return tt /\
       fs w' !! ("uploads/" ++
                 filename_with_timestamp secure_filename env file) =
         Some (stream file) /\
       model_calls w' =
         (model_calls w ++
          [(("uploads/" ++
             filename_with_timestamp secure_filename env file)%string,
            0.25%float, 0.7%float)])%list).
Proof.
  destruct (upload_run secure_filename b64encode MODEL_LOADED env request w)
    as (response & w' & Hrun & Hcase).
  exists response, w'. split; [exact Hrun |].
  destruct Hcase as
    [(_ & -> & _) | [(_ & -> & _) | [(_ & -> & _) |
     (Hl & file & Ha & Hsave & Hcalls & Hup & _)]]]; auto.
  right. exists file. auto.
Qed.

(** X6. The handler never deletes a file: every path that had a file
    before a request has one after it. The only paths whose content can
    change are the upload path and the result path of the accepted file. *)
Theorem handler_never_deletes (secure_filename : string -> string)
    (b64encode : bytes -> string) (MODEL_LOADED : bool) (env : Env)
    (request : Request) (w : World) (path : string) :
  exists response w',
    upload_file secure_filename b64encode MODEL_LOADED env request w =
      (Return response, w') /\
    (is_Some (fs w !! path) -> is_Some (fs w' !! path)) /\
    (fs w' !! path <> fs w !! path ->
     exists file,
       accepted request file /\
       (path = "uploads/" ++ filename_with_timestamp secure_filename env file \/
        path = "results/" ++
               result_filename
                 (filename_with_timestamp secure_filename env file))).
Proof.
  destruct (upload_run secure_filename b64encode MODEL_LOADED env request w)
    as (response & w' & Hrun & Hcase).
  exists response, w'. split; [exact Hrun |].
  destruct Hcase as
    [(_ & -> & _) | [(_ & -> & _) | [(_ & -> & _) |
     (Hl & file & Ha & Hsave & Hcalls & Hup & Hfs)]]];
    try (split; [tauto | congruence]).
  assert (Hw : fs w' = <["uploads/" ++
                         filename_with_timestamp secure_filename env file
                         := stream file]> (fs w) \/
               exists result,
                 fs w' = <["results/" ++
                           result_filename
                             (filename_with_timestamp secure_filename env file)
                           := result]>
                           (<["uploads/" ++
                              filename_with_timestamp secure_filename env file
                              := stream file]> (fs w))).
  { destruct Hfs as [(e & _ & H & _) | [(r & _ & H & _) |
                     (r & res & _ & [H | H] & _)]]; eauto. }
  split.
  - intros Hsome.
    destruct Hw as [-> | [result ->]]; rewrite ?lookup_insert_is_Some'; tauto.
  - intros Hchg. exists file. split; [exact Ha |].
    destruct (decide (path = "uploads/" ++
                      filename_with_timestamp secure_filename env file))
      as [|Hn1]; [now left | right].
    destruct (decide (path = "results/" ++
                      result_filename
                        (filename_with_timestamp secure_filename env file)))
      as [|Hn2]; [assumption | exfalso].
    apply Hchg.
    destruct Hw as [-> | [result ->]];
      now rewrite ?lookup_insert_ne by congruence.
Qed.

(** X7. The images of a successful answer are read back from the disk:
    original_image encodes exactly the uploaded bytes, stored under the
    upload path, and result_image encodes the file that is at the result
    path when the answer is built; filename is the stored name. *)
Theorem success_images_are_the_stored_files
    (secure_filename : string -> string) (b64encode : bytes -> string)
    (MODEL_LOADED : bool) (env : Env) (request : Request) (w w' : World)
    (response : Response) :
  upload_file secure_filename b64encode MODEL_LOADED env request w =
    (Return response, w') ->
  status response = 200 ->
  exists file result,
    accepted request file /\
    fs w' !! ("uploads/" ++ filename_with_timestamp secure_filename env file) =
      Some (stream file) /\
    fs w' !! ("results/" ++
              result_filename
                (filename_with_timestamp secure_filename env file)) =
      Some result /\
    Client.get_string "original_image" (body response) =
      Some (b64encode (stream file)) /\
    Client.get_string "result_image" (body response) =
      Some (b64encode result) /\
    Client.get_string "filename" (body response) =
      Some (filename_with_timestamp secure_filename env file).
Proof.
  intros Hrun Hs.
  destruct (upload_run secure_filename b64encode MODEL_LOADED env request w)
    as (response0 & w0 & Hrun0 & Hcase).
  rewrite Hrun in Hrun0. injection Hrun0 as <- <-.
  destruct Hcase as
    [(_ & _ & ->) | [(_ & _ & m & _ & ->) | [(_ & _ & f & e & _ & _ & ->) |
     (_ & file & Ha & _ & _ & Hup & [(e & _ & _ & ->) | [(r & _ & _ & _ & ->) |
      (r & result & _ & _ & Hres & ->)]])]]]; try discriminate.
  exists file, result.
  split; [exact Ha |]. split; [exact Hup |]. split; [exact Hres |].
  repeat split.
Qed.

(** X7, on a sample: a PNG upload on which everything succeeds. *)
Lemma success_images_are_the_stored_files_witness :
  exists file result,
    accepted (Sample.upload_of Sample.scan_a) file /\
    Client.get_string "original_image"
      (success_body (Sample.b64encode [Byte.x01])
         (Sample.b64encode [Byte.xff; Byte.xd8]) [Sample.one_box]
         "20240309_140507_001234_scan.png") =
      Some (Sample.b64encode (stream file)) /\
    Client.get_string "result_image"
      (success_body (Sample.b64encode [Byte.x01])
         (Sample.b64encode [Byte.xff; Byte.xd8]) [Sample.one_box]
         "20240309_140507_001234_scan.png") =
      Some (Sample.b64encode result).
Proof.
  destruct (success_images_are_the_stored_files Sample.secure_filename
              Sample.b64encode true Sample.healthy
              (Sample.upload_of Sample.scan_a) Sample.empty_world
              (snd (upload_file Sample.secure_filename Sample.b64encode true
                      Sample.healthy (Sample.upload_of Sample.scan_a)
                      Sample.empty_world))
              {| status := 200;
                 body := success_body (Sample.b64encode [Byte.x01])
                           (Sample.b64encode [Byte.xff; Byte.xd8])
                           [Sample.one_box]
                           "20240309_140507_001234_scan.png" |})
    as (file & result & Ha & _ & _ & Ho & Hr & _).
  - vm_compute. reflexivity.
  - reflexivity.
  - exists file, result. auto.
Defined.

(** ** More on validation and names *)

Lemma lower_char_dot (a : ascii) :
  Ascii.eqb (Str.lower_char a) "." = Ascii.eqb a ".".
Proof. destruct a as [[] [] [] [] [] [] [] []]; reflexivity. Qed.

Lemma lower_char_idem (a : ascii) :
  Str.lower_char (Str.lower_char a) = Str.lower_char a.
Proof. destruct a as [[] [] [] [] [] [] [] []]; reflexivity. Qed.

Lemma lower_idem (s : string) : Str.lower (Str.lower s) = Str.lower s.
Proof.
  induction s as [|a s IH]; simpl; [reflexivity |].
  now rewrite lower_char_idem, IH.
Qed.

Lemma rsplit_once_lower (s : string) :
  Str.rsplit_once "." (Str.lower s) =
  match Str.rsplit_once "." s with
  | Some (l, r) => Some (Str.lower l, Str.lower r)
  | None => None
  end.
Proof.
  induction s as [|a s IH]; simpl; [reflexivity |].
  rewrite IH, lower_char_dot.
  destruct (Str.rsplit_once "." s) as [[l r]|]; [reflexivity |].
  now destruct (Ascii.eqb a ".").
Qed.

(** X9. The validator does not look at the case of the file name: a name
    and its lower-cased form get the same verdict. *)
Theorem allowed_file_ignores_case (name : string) :
  allowed_file (Str.lower name) = allowed_file name.
Proof.
  rewrite !allowed_file_eq, rsplit_once_lower.
  destruct (Str.rsplit_once "." name) as [[l r]|]; [| reflexivity].
  now rewrite lower_idem.
Qed.

(** [splitext] on a name made of a stem and a plain extension. *)
Lemma splitext_of_dotted (stem ext : string) :
  stem <> "" -> Str.startswith "." stem = false ->
  Str.contains "/" stem = false ->
  Str.contains "." ext = false -> Str.contains "/" ext = false ->
  splitext (stem ++ "." ++ ext) = (stem, "." ++ ext).
Proof.
  intros Hne Hdot Hslash Hext Hexts.
  change (stem ++ "." ++ ext) with (stem ++ String "." ext).
  change ("." ++ ext) with (String "." ext).
  set (p := stem ++ String "." ext).
  assert (Hd : Str.rfind "." p = Z.of_nat (String.length stem)).
  { rewrite rfind_rsplit_once.
    now rewrite (proj2 (rsplit_once_some "." p stem ext) (conj eq_refl Hext)). }
  assert (Hs : Str.rfind "/" p = -1).
  { rewrite rfind_rsplit_once.
    assert (Hc : Str.contains "/" p = false).
    { unfold p. rewrite contains_append, Hslash. simpl. exact Hexts. }
    apply rsplit_once_none in Hc. now rewrite Hc. }
  unfold splitext. rewrite Hd, Hs.
  destruct (Z.ltb_spec (-1) (Z.of_nat (String.length stem))) as [_|]; [| lia].
  replace (Z.of_nat (String.length stem) - (-1 + 1))
    with (Z.of_nat (String.length stem)) by lia.
  rewrite Nat2Z.id. change (Z.to_nat (-1 + 1)) with 0%nat.
  destruct stem as [|c stem']; [congruence |].
  simpl String.length. cbn [splitext_scan].
  assert (Hc : negb (String.eqb (Str.char_at 0 p) ".") = true).
  { unfold p. simpl in Hdot |- *.
    destruct (Ascii.eqb_spec c "."); [discriminate |].
    destruct stem'; simpl;
      (destruct (Ascii.eqb_spec c "."); [contradiction | reflexivity]). }
  rewrite Hc. unfold p.
  change (S (String.length stem')) with (String.length (String c stem')).
  now rewrite take_append_length, drop_append_length.
Qed.

(** X8. The name of the annotated image does not depend on the extension
    of the upload: two uploads stamped with the same instant whose
    sanitised names differ only in their extensions get different stored
    names but one and the same result name. *)
Theorem result_name_ignores_extension (secure_filename : string -> string)
    (env : Env) (file1 file2 : FileStorage) (stem ext1 ext2 : string) :
  secure_filename (filename file1) = stem ++ "." ++ ext1 ->
  secure_filename (filename file2) = stem ++ "." ++ ext2 ->
  Str.contains "/" stem = false ->
  Str.contains "." ext1 = false -> Str.contains "/" ext1 = false ->
  Str.contains "." ext2 = false -> Str.contains "/" ext2 = false ->
  result_filename (filename_with_timestamp secure_filename env file1) =
  result_filename (filename_with_timestamp secure_filename env file2) /\
  result_filename (filename_with_timestamp secure_filename env file1) =
    "detected_" ++ strftime (now env) "%Y%m%d_%H%M%S_%f" ++ "_" ++ stem ++
    ".jpg" /\
  (ext1 <> ext2 ->
   filename_with_timestamp secure_filename env file1 <>
   filename_with_timestamp secure_filename env file2).
Proof.
  intros H1 H2 Hstem Hd1 Hs1 Hd2 Hs2.
  set (ts := strftime (now env) "%Y%m%d_%H%M%S_%f").
  assert (Hres : forall file ext,
             secure_filename (filename file) = stem ++ "." ++ ext ->
             Str.contains "." ext = false -> Str.contains "/" ext = false ->
             result_filename (filename_with_timestamp secure_filename env file) =
             "detected_" ++ ts ++ "_" ++ stem ++ ".jpg").
  { intros file ext Hn Hd Hs. unfold result_filename, filename_with_timestamp.
    fold ts. rewrite Hn.
    replace (ts ++ "_" ++ stem ++ "." ++ ext)
      with ((ts ++ "_" ++ stem) ++ "." ++ ext)
      by (now rewrite !append_assoc).
    rewrite splitext_of_dotted; try assumption.
    - now rewrite !append_assoc.
    - intros E. apply (f_equal String.length) in E.
      rewrite length_append in E. unfold ts in E.
      rewrite length_strftime_stamp in E. discriminate.
    - rewrite startswith_append.
      + apply startswith_contains, contains_strftime_stamp. reflexivity.
      + intros E. apply (f_equal String.length) in E. unfold ts in E.
        rewrite length_strftime_stamp in E. discriminate.
    - rewrite !contains_append. unfold ts.
      rewrite contains_strftime_stamp by reflexivity. simpl. exact Hstem. }
  split; [now rewrite (Hres _ _ H1 Hd1 Hs1), (Hres _ _ H2 Hd2 Hs2) |].
  split; [exact (Hres _ _ H1 Hd1 Hs1) |].
  intros Hne E. unfold filename_with_timestamp in E. rewrite H1, H2 in E.
  apply append_inj_length in E as [_ E]; [| reflexivity].
  apply (append_inj_length "_" "_") in E as [_ E]; [| reflexivity].
  apply append_inj_length in E as [_ E]; [| reflexivity].
  apply (append_inj_length "." ".") in E as [_ E]; [| reflexivity].
  contradiction.
Qed.

(** X8, on a sample: scan.png and scan.bmp uploaded in the same
    microsecond share the result name. *)
Lemma result_name_ignores_extension_witness :
  result_filename
    (filename_with_timestamp Sample.secure_filename Sample.healthy
       Sample.scan_a) =
  result_filename
    (filename_with_timestamp Sample.secure_filename Sample.healthy
       Cases.scan_bmp) /\
  result_filename
    (filename_with_timestamp Sample.secure_filename Sample.healthy
       Sample.scan_a) =
  "detected_20240309_140507_001234_scan.jpg".
Proof.
  destruct (result_name_ignores_extension Sample.secure_filename
              Sample.healthy Sample.scan_a Cases.scan_bmp "scan" "png" "bmp")
    as (Hsame & Hname & _); try reflexivity.
  split; [exact Hsame |]. rewrite Hname. vm_compute. reflexivity.
Defined.

(** ** Stored files and later requests *)

Lemma stored_name_instant (secure_filename : string -> string)
    (env1 env2 : Env) (file1 file2 : FileStorage) :
  datetime_ok (now env1) -> datetime_ok (now env2) ->
  filename_with_timestamp secure_filename env1 file1 =
  filename_with_timestamp secure_filename env2 file2 ->
  now env1 = now env2.
Proof.
  intros Hok1 Hok2 H. unfold filename_with_timestamp in H.
  apply append_inj_length in H as [H _];
    [| now rewrite !length_strftime_stamp].
  now apply strftime_stamp_inj.
Qed.

Lemma result_name_instant (secure_filename : string -> string)
    (env1 env2 : Env) (file1 file2 : FileStorage) :
  datetime_ok (now env1) -> datetime_ok (now env2) ->
  result_filename (filename_with_timestamp secure_filename env1 file1) =
  result_filename (filename_with_timestamp secure_filename env2 file2) ->
  now env1 = now env2.
Proof.
  intros Hok1 Hok2 H.
  destruct (result_filename_of_stored secure_filename env1 file1)
    as (s1 & e1 & _ & _ & H1).
  destruct (result_filename_of_stored secure_filename env2 file2)
    as (s2 & e2 & _ & _ & H2).
  rewrite H1, H2 in H.
  apply (append_inj_length "detected_" "detected_") in H as [_ H];
    [| reflexivity].
  apply append_inj_length in H as [H _];
    [| now rewrite !length_strftime_stamp].
  now apply strftime_stamp_inj.
Qed.

(** X13. Requests stamped at different instants do not touch each
    other's files: after a successful upload, a later request with another
    time stamp, whatever it carries and however it ends, leaves the stored
    upload and its annotated image as they were. *)
Theorem later_request_keeps_earlier_files
    (secure_filename : string -> string) (b64encode : bytes -> string)
    (env1 env2 : Env) (request1 request2 : Request) (w w1 w2 : World)
    (response1 response2 : Response) :
  datetime_ok (now env1) -> datetime_ok (now env2) ->
  now env1 <> now env2 ->
  upload_file secure_filename b64encode true env1 request1 w =
    (Return response1, w1) ->
  status response1 = 200 ->
  upload_file secure_filename b64encode true env2 request2 w1 =
    (Return response2, w2) ->
  exists file1 result1,
    accepted request1 file1 /\
    fs w2 !! ("uploads/" ++
              filename_with_timestamp secure_filename env1 file1) =
      Some (stream file1) /\
    fs w1 !! ("results/" ++
              result_filename
                (filename_with_timestamp secure_filename env1 file1)) =
      Some result1 /\
    fs w2 !! ("results/" ++
              result_filename
                (filename_with_timestamp secure_filename env1 file1)) =
      Some result1.
Proof.
  intros Hok1 Hok2 Hne Hrun1 Hs1 Hrun2.
  destruct (upload_run secure_filename b64encode true env1 request1 w)
    as (r1 & w1' & Hr1 & Hcase1).
  rewrite Hrun1 in Hr1. injection Hr1 as <- <-.
  destruct Hcase1 as
    [(_ & _ & ->) | [(_ & _ & m & _ & ->) | [(_ & _ & f & e & _ & _ & ->) |
     (_ & file1 & Ha1 & _ & _ & Hup1 & [(e & _ & _ & ->) |
      [(r & _ & _ & _ & ->) | (r & result1 & _ & _ & Hres1 & _)]])]]];
    try discriminate.
  exists file1, result1.
  split; [exact Ha1 |].
  destruct (upload_run secure_filename b64encode true env2 request2 w1)
    as (r2 & w2' & Hr2 & Hcase2).
  rewrite Hrun2 in Hr2. injection Hr2 as <- <-.
  assert (Hframe :
    forall path,
      (forall file2,
         path <> "uploads/" ++
                 filename_with_timestamp secure_filename env2 file2) ->
      (forall file2,
         path <> "results/" ++
                 result_filename
                   (filename_with_timestamp secure_filename env2 file2)) ->
      fs w2 !! path = fs w1 !! path).
  { intros path Hn1 Hn2.
    destruct Hcase2 as
      [(_ & -> & _) | [(_ & -> & _) | [(_ & -> & _) |
       (_ & file2 & _ & _ & _ & _ & Hfs)]]]; try reflexivity.
    destruct Hfs as [(e & _ & -> & _) | [(r2 & _ & -> & _) |
                     (r2 & res2 & _ & [-> | ->] & _)]];
      rewrite ?lookup_insert_ne; auto. }
  assert (Hu : forall a b : string, "uploads/" ++ a = "uploads/" ++ b -> a = b).
  { intros a b E. now apply append_inj_length in E as [_ E]. }
  assert (Hr : forall a b : string, "results/" ++ a = "results/" ++ b -> a = b).
  { intros a b E. now apply append_inj_length in E as [_ E]. }
  split; [| split; [exact Hres1 |]].
  - rewrite Hframe; [exact Hup1 | |].
    + intros file2 E. apply Hu in E.
      apply Hne. now apply (stored_name_instant secure_filename _ _ file1 file2).
    + intros file2. apply upload_path_not_result_path.
  - rewrite Hframe; [exact Hres1 | |].
    + intros file2 E. symmetry in E. revert E.
      apply upload_path_not_result_path.
    + intros file2 E. apply Hr in E.
      apply Hne. now apply (result_name_instant secure_filename _ _ file1 file2).
Qed.

(** X13, on a sample: the same file uploaded twice, one microsecond
    apart. *)
Lemma later_request_keeps_earlier_files_witness :
  exists file1 result1,
    accepted (Sample.upload_of Sample.scan_a) file1 /\
    fs (snd (upload_file Sample.secure_filename Sample.b64encode true
               Sample.healthy_later (Sample.upload_of Sample.scan_b)
               (snd (upload_file Sample.secure_filename Sample.b64encode true
                       Sample.healthy (Sample.upload_of Sample.scan_a)
                       Sample.empty_world))))
      !! ("uploads/" ++
          filename_with_timestamp Sample.secure_filename Sample.healthy file1) =
      Some (stream file1) /\
    fs (snd (upload_file Sample.secure_filename Sample.b64encode true
               Sample.healthy (Sample.upload_of Sample.scan_a)
               Sample.empty_world))
      !! ("results/" ++
          result_filename
            (filename_with_timestamp Sample.secure_filename Sample.healthy
               file1)) = Some result1 /\
    fs (snd (upload_file Sample.secure_filename Sample.b64encode true
               Sample.healthy_later (Sample.upload_of Sample.scan_b)
               (snd (upload_file Sample.secure_filename Sample.b64encode true
                       Sample.healthy (Sample.upload_of Sample.scan_a)
                       Sample.empty_world))))
      !! ("results/" ++
          result_filename
            (filename_with_timestamp Sample.secure_filename Sample.healthy
               file1)) = Some result1.
Proof.
  refine (later_request_keeps_earlier_files Sample.secure_filename
            Sample.b64encode Sample.healthy Sample.healthy_later
            (Sample.upload_of Sample.scan_a) (Sample.upload_of Sample.scan_b)
            Sample.empty_world _ _
            (fst (match upload_file Sample.secure_filename Sample.b64encode
                          true Sample.healthy (Sample.upload_of Sample.scan_a)
                          Sample.empty_world
                  with (Return r, _) => (r, tt) | _ => (error_response 0 "", tt)
                  end))
            (fst (match upload_file Sample.secure_filename Sample.b64encode
                          true Sample.healthy_later
                          (Sample.upload_of Sample.scan_b)
                          (snd (upload_file Sample.secure_filename
                                  Sample.b64encode true Sample.healthy
                                  (Sample.upload_of Sample.scan_a)
                                  Sample.empty_world))
                  with (Return r, _) => (r, tt) | _ => (error_response 0 "", tt)
                  end))
            _ _ _ _ _ _).
  - unfold datetime_ok. simpl. lia.
  - unfold datetime_ok. simpl. lia.
  - discriminate.
  - vm_compute. reflexivity.
  - vm_compute. reflexivity.
  - vm_compute. reflexivity.
Defined.

(** ** The page and the handler together *)

Lemma confidences_of_detections (found : list Box) :
  mapM Client.confidence_of (map detection_of_box found) =
  Some (map conf found).
Proof.
  apply mapM_Some_2.
  induction found as [|box found IH]; constructor; [reflexivity | exact IH].
Qed.

Lemma showResults_success_body (original result name : string)
    (found : list Box) :
  Client.showResults (success_body original result found name) =
  Some {| Client.originalImage_src := "data:image/jpeg;base64," ++ original;
          Client.resultImage_src := "data:image/jpeg;base64," ++ result;
          Client.currentOriginalFileName := "original_" ++ name;
          Client.currentResultFileName := "detected_" ++ name;
          Client.detectionCount := Z.of_nat (length found);
          Client.avgConfidence := Page.avgConfidence (map conf found);
          Client.threatLevel := Page.threatLevel (Z.of_nat (length found)) |}.
Proof.
  unfold Client.showResults, success_body.
  change (Client.get_string "original_image" _) with (Some original).
  change (Client.get_string "result_image" _) with (Some result).
  change (Client.get_string "filename" _) with (Some name).
  change (Client.get "detection_count" _)
    with (Some (JInt (Z.of_nat (length found)))).
  change (Client.get "detections" _)
    with (Some (JList (map detection_of_box found))).
  cbv beta iota. now rewrite confidences_of_detections.
Qed.

Lemma on_fetch_error (code : Z) (message : string) :
  message <> "" -> code = 400 \/ code = 500 ->
  Client.on_fetch (Return (error_response code message)) =
  Some (Client.ShowError
          ("Network error or processing failed: " ++ message)).
Proof.
  intros Hne Hcode. unfold Client.on_fetch.
  assert (Hok : Client.response_ok (error_response code message) = false)
    by (destruct Hcode as [-> | ->]; reflexivity).
  rewrite Hok. cbn [negb].
  change (Client.get "error" (body (error_response code message)))
    with (Some (JStr message)).
  unfold Client.message_or, Client.truthy.
  destruct (String.eqb_spec message ""); [contradiction | reflexivity].
Qed.

(** X10. The statistics the page shows for a successful answer are those
    of the detector's boxes: the count is their number, the average
    confidence is the mean of their confidences, the threat level is the
    step function of their number; with no box the average is 0 and the
    level LOW. The page shows results, not an error. *)
Theorem page_shows_detector_statistics (secure_filename : string -> string)
    (b64encode : bytes -> string) (MODEL_LOADED : bool) (env : Env)
    (request : Request) (w w' : World) (response : Response) :
  upload_file secure_filename b64encode MODEL_LOADED env request w =
    (Return response, w') ->
  status response = 200 ->
  exists file results view,
    accepted request file /\
    model env
      ("uploads/" ++ filename_with_timestamp secure_filename env file)
      0.25 0.7 = Return results /\
    Client.on_fetch (Return response) =
      Some (Client.ShowResults (body response)) /\
    Client.showResults (body response) = Some view /\
    Client.detectionCount view = Z.of_nat (length (boxes_of results)) /\
    Client.avgConfidence view =
      Page.avgConfidence (map conf (boxes_of results)) /\
    Client.threatLevel view =
      Page.threatLevel (Z.of_nat (length (boxes_of results))) /\
    (boxes_of results = [] ->
     Client.detectionCount view = 0 /\
     Client.avgConfidence view = 0%float /\
     Client.threatLevel view = Page.LOW).
Proof.
  intros Hrun Hs.
  destruct (upload_run secure_filename b64encode MODEL_LOADED env request w)
    as (response0 & w0 & Hrun0 & Hcase).
  rewrite Hrun in Hrun0. injection Hrun0 as <- <-.
  destruct Hcase as
    [(_ & _ & ->) | [(_ & _ & m & _ & ->) | [(_ & _ & f & e & _ & _ & ->) |
     (_ & file & Ha & _ & _ & _ & [(e & _ & _ & ->) | [(r & _ & _ & _ & ->) |
      (results & result & Hm & _ & _ & ->)]])]]]; try discriminate.
  exists file, results. eexists.
  split; [exact Ha |]. split; [exact Hm |].
  split; [reflexivity |].
  cbn [body]. split; [apply showResults_success_body |].
  cbn [Client.detectionCount Client.avgConfidence Client.threatLevel].
  split; [reflexivity |]. split; [reflexivity |]. split; [reflexivity |].
  intros ->. repeat split.
Qed.

(** X10, on a sample: one box of confidence 0.9. *)
Lemma page_shows_detector_statistics_witness :
  exists view,
    Client.showResults
      (success_body (Sample.b64encode [Byte.x01])
         (Sample.b64encode [Byte.xff; Byte.xd8]) [Sample.one_box]
         "20240309_140507_001234_scan.png") = Some view /\
    Client.detectionCount view = 1 /\
    Client.avgConfidence view = 0.9%float /\
    Client.threatLevel view = Page.LOW.
Proof.
  destruct (page_shows_detector_statistics Sample.secure_filename
              Sample.b64encode true Sample.healthy
              (Sample.upload_of Sample.scan_a) Sample.empty_world
              (snd (upload_file Sample.secure_filename Sample.b64encode true
                      Sample.healthy (Sample.upload_of Sample.scan_a)
                      Sample.empty_world))
              {| status := 200;
                 body := success_body (Sample.b64encode [Byte.x01])
                           (Sample.b64encode [Byte.xff; Byte.xd8])
                           [Sample.one_box]
                           "20240309_140507_001234_scan.png" |})
    as (file & results & view & _ & Hm & _ & Hview & Hc & Ha & Ht & _).
  - vm_compute. reflexivity.
  - reflexivity.
  - injection Hm as <-. exists view. cbn [body] in Hview.
    split; [exact Hview |].
    split; [exact Hc |]. split; [rewrite Ha; vm_compute; reflexivity |].
    exact Ht.
Defined.

(** X11. Every answer of the handler that is not a success carries a
    status outside 200-299, so the page takes the rejection path: it shows
    "ERROR: Network error or processing failed: " followed by the
    handler's message, whether the error was the client's (400) or the
    server's (500). *)
Theorem page_shows_handler_errors (secure_filename : string -> string)
    (b64encode : bytes -> string) (MODEL_LOADED : bool) (env : Env)
    (request : Request) (w w' : World) (response : Response) :
  upload_file secure_filename b64encode MODEL_LOADED env request w =
    (Return response, w') ->
  status response <> 200 ->
  exists message,
    body response = [("success", JBool false); ("error", JStr message)] /\
    Client.on_fetch (Return response) =
      Some (Client.ShowError
              ("Network error or processing failed: " ++ message)) /\
    Client.showError ("Network error or processing failed: " ++ message) =
      "ERROR: Network error or processing failed: " ++ message.
Proof.
  intros Hrun Hs.
  destruct (upload_run secure_filename b64encode MODEL_LOADED env request w)
    as (response0 & w0 & Hrun0 & Hcase).
  rewrite Hrun in Hrun0. injection Hrun0 as <- <-.
  destruct Hcase as
    [(_ & _ & ->) | [(_ & _ & m & Hr & ->) | [(_ & _ & f & e & _ & _ & ->) |
     (_ & file & Ha & _ & _ & _ & [(e & _ & _ & ->) | [(r & _ & _ & _ & ->) |
      (results & result & Hm & _ & _ & ->)]])]]];
    try (now contradiction Hs);
    (eexists; split; [reflexivity |]; split; [| reflexivity];
     apply on_fetch_error; [| auto]).
  - discriminate.
  - destruct Hr; discriminate.
  - discriminate.
  - discriminate.
  - discriminate.
Qed.

(** X11, on a sample: a GIF upload. *)
Lemma page_shows_handler_errors_witness :
  Client.on_fetch
    (fst (upload_file Sample.secure_filename Sample.b64encode true
            Sample.healthy Sample.gif_upload Sample.empty_world)) =
  Some (Client.ShowError
          "Network error or processing failed: Invalid file type. Please upload a supported image format.").
Proof.
  destruct (page_shows_handler_errors Sample.secure_filename Sample.b64encode
              true Sample.healthy Sample.gif_upload Sample.empty_world
              Sample.empty_world
              (error_response 400
                 "Invalid file type. Please upload a supported image format."))
    as (message & Hbody & Hpage & _).
  - vm_compute. reflexivity.
  - discriminate.
  - injection Hbody as <-. exact Hpage.
Defined.

(** X12. The name the page proposes for downloading the annotated image
    is [detected_] followed by the stored name, extension included. It is
    the name of the result file on the server exactly when the stored name
    ends in [.jpg]; for any other upload the proposed name keeps the
    extension of the upload although the image is a JPEG. *)
Theorem download_name_and_result_name (data : list (string * json))
    (view : Client.ResultsView) (name : string) :
  Client.showResults data = Some view ->
  Client.get_string "filename" data = Some name ->
  Client.currentResultFileName view = "detected_" ++ name /\
  Client.currentOriginalFileName view = "original_" ++ name /\
  (Client.currentResultFileName view = result_filename name <->
   snd (splitext name) = ".jpg").
Proof.
  intros Hview Hname. unfold Client.showResults in Hview.
  rewrite Hname in Hview.
  repeat (case_match; try discriminate). injection Hview as <-.
  cbn [Client.currentResultFileName Client.currentOriginalFileName].
  split; [reflexivity | split; [reflexivity |]].
  unfold result_filename.
  destruct (splitext name) as [stem ext] eqn:E. cbn [snd].
  apply splitext_spec in E as [-> _].
  split.
  - intros Hsame.
    apply (append_inj_length "detected_" "detected_") in Hsame as [_ Hsame];
      [| reflexivity].
    now apply append_inj_length in Hsame as [_ Hsame].
  - now intros ->.
Qed.

(** X12, on a sample: for a PNG upload the proposed name ends in .png
    while the result file ends in .jpg. *)
Lemma download_name_and_result_name_witness :
  exists view,
    Client.showResults
      (success_body "" "" [] "20240309_140507_001234_scan.png") =
      Some view /\
    Client.currentResultFileName view =
      "detected_20240309_140507_001234_scan.png" /\
    result_filename "20240309_140507_001234_scan.png" =
      "detected_20240309_140507_001234_scan.jpg".
Proof.
  eexists. split; [vm_compute; reflexivity |].
  split; [| vm_compute; reflexivity].
  refine (proj1 (download_name_and_result_name
                   (success_body "" "" [] "20240309_140507_001234_scan.png")
                   _ "20240309_140507_001234_scan.png" _ eq_refl)).
  vm_compute. reflexivity.
Defined.

(** X14. The threat level never goes down when the detection count goes
    up. *)
Theorem threat_level_monotone (n m : Z) :
  n <= m ->
  threat_rank (Page.threatLevel n) <= threat_rank (Page.threatLevel m).
Proof.
  intros H. unfold Page.threatLevel.
  destruct (Z.leb_spec 5 n); destruct (Z.leb_spec 2 n);
    destruct (Z.leb_spec 5 m); destruct (Z.leb_spec 2 m); simpl; lia.
Qed.

(** X14, on a sample: four detections against five. *)
Lemma threat_level_monotone_witness :
  threat_rank (Page.threatLevel 4) <= threat_rank (Page.threatLevel 5).
Proof. apply threat_level_monotone. lia. Defined.

(** ** Stored names *)

Lemma rfind_at_least (c : ascii) (s : string) : -1 <= Str.rfind c s.
Proof.
  rewrite rfind_rsplit_once.
  destruct (Str.rsplit_once c s) as [[l r]|]; lia.
Qed.

(** A path without a dot has no extension. *)
Lemma splitext_no_dot (p : string) :
  Str.contains "." p = false -> splitext p = (p, "").
Proof.
  intros H. unfold splitext.
  assert (Hd : Str.rfind "." p = -1).
  { rewrite rfind_rsplit_once. apply rsplit_once_none in H. now rewrite H. }
  rewrite Hd. pose proof (rfind_at_least "/" p).
  destruct (Z.ltb_spec (Str.rfind "/" p) (-1)); [lia | reflexivity].
Qed.

(** C8. An accepted upload is stored under the time stamp
    [%Y%m%d_%H%M%S_%f] (four, two and two digits, an underscore, three
    times two digits, an underscore, six digits of microseconds), an
    underscore and the sanitised file name. Its annotated image is stored
    under [detected_], the stem of the stored name and [.jpg]: the stored
    name as it is when the sanitised name has no dot, and the stored name
    cut before its last dot otherwise, whatever follows that dot. When the
    save, the detector and the image writer succeed, both files are on disk
    under these names and the answer names the stored file. The sanitised
    name has no path separator, as [secure_filename] ensures. *)
Theorem stored_and_result_names (secure_filename : string -> string)
    (b64encode : bytes -> string) (env : Env) (request : Request)
    (file : FileStorage) (w : World) :
  accepted request file ->
  datetime_ok (now env) ->
  Str.contains "/" (secure_filename (filename file)) = false ->
  exists stamp,
    stamp =
      zpad 4 (year (now env)) ++ zpad 2 (month (now env)) ++
      zpad 2 (day (now env)) ++ "_" ++
      zpad 2 (hour (now env)) ++ zpad 2 (minute (now env)) ++
      zpad 2 (second (now env)) ++ "_" ++
      zpad 6 (microsecond (now env)) /\
    String.length stamp = 22%nat /\
    filename_with_timestamp secure_filename env file =
      stamp ++ "_" ++ secure_filename (filename file) /\
    (Str.contains "." (secure_filename (filename file)) = false ->
     result_filename (filename_with_timestamp secure_filename env file) =
       "detected_" ++ stamp ++ "_" ++ secure_filename (filename file) ++
       ".jpg") /\
    (forall stem ext,
       secure_filename (filename file) = stem ++ "." ++ ext ->
       Str.contains "." ext = false ->
       result_filename (filename_with_timestamp secure_filename env file) =
         "detected_" ++ stamp ++ "_" ++ stem ++ ".jpg") /\
    (forall results img jpeg,
       file_save env
         ("uploads/" ++ filename_with_timestamp secure_filename env file) =
         Return tt ->
       model env
         ("uploads/" ++ filename_with_timestamp secure_filename env file)
         0.25 0.7 = Return results ->
       plot results = Return img ->
       cv2_imwrite env
         ("results/" ++
          result_filename (filename_with_timestamp secure_filename env file))
         img = Return (Some jpeg) ->
       exists response w',
         upload_file secure_filename b64encode true env request w =
           (Return response, w') /\
         status response = 200 /\
         In ("filename",
             JStr (filename_with_timestamp secure_filename env file))
            (body response) /\
         fs w' !! ("uploads/" ++
                   filename_with_timestamp secure_filename env file) =
           Some (stream file) /\
         fs w' !! ("results/" ++
                   result_filename
                     (filename_with_timestamp secure_filename env file)) =
           Some jpeg).
Proof.
  intros Ha _ Hslash.
  exists (strftime (now env) "%Y%m%d_%H%M%S_%f").
  set (ts := strftime (now env) "%Y%m%d_%H%M%S_%f").
  set (name := secure_filename (filename file)) in *.
  assert (Hts_ne : forall rest, ts ++ rest <> "").
  { intros rest E. apply (f_equal String.length) in E.
    rewrite length_append in E. unfold ts in E.
    rewrite length_strftime_stamp in E. discriminate. }
  split; [apply strftime_stamp |].
  split; [apply length_strftime_stamp |].
  split; [reflexivity |].
  split; [| split].
  - intros Hdot. unfold result_filename, filename_with_timestamp.
    fold ts name. rewrite splitext_no_dot.
    + now rewrite !append_assoc.
    + rewrite !contains_append. unfold ts.
      rewrite contains_strftime_stamp by reflexivity. simpl. exact Hdot.
  - intros stem ext Hname Hext.
    unfold result_filename, filename_with_timestamp. fold ts name.
    rewrite Hname in Hslash |- *.
    rewrite !contains_append in Hslash.
    apply orb_false_iff in Hslash as [Hs1 Hs2]. simpl in Hs2.
    replace (ts ++ "_" ++ stem ++ "." ++ ext)
      with ((ts ++ "_" ++ stem) ++ "." ++ ext)
      by (now rewrite !append_assoc).
    rewrite splitext_of_dotted; try assumption.
    + now rewrite !append_assoc.
    + apply Hts_ne.
    + rewrite startswith_append.
      * apply startswith_contains, contains_strftime_stamp. reflexivity.
      * rewrite <- (append_nil_r ts). apply Hts_ne.
    + rewrite !contains_append. unfold ts.
      rewrite contains_strftime_stamp by reflexivity. simpl. exact Hs1.
  - intros results img jpeg Hsave Hmodel Hplot Hwrite.
    set (stored_name := filename_with_timestamp secure_filename env file) in *.
    assert (Hrp : os_path_join RESULTS_FOLDER (result_filename stored_name) =
                  "results/" ++ result_filename stored_name)
      by apply result_path_eq.
    rewrite (upload_file_accepted _ _ _ _ _ _ Ha). cbv zeta.
    rewrite upload_path_eq. fold stored_name. rewrite Hsave.
    erewrite detect_returns;
      [| exact Hmodel | exact Hplot | rewrite Hrp; exact Hwrite
       | apply lookup_insert_eq
       | rewrite Hrp; apply upload_path_not_result_path].
    eexists _, _. split; [reflexivity |]. cbn [status body fs].
    split; [reflexivity |].
    split; [unfold success_body; simpl; tauto |].
    rewrite Hrp. split; [| apply lookup_insert_eq].
    rewrite lookup_insert_ne; [apply lookup_insert_eq |].
    intros E. symmetry in E. revert E. apply upload_path_not_result_path.
Qed.

(** C8, on a sample: a PNG upload stamped 2024-03-09 14:05:07.001234. *)
Lemma stored_and_result_names_witness :
  filename_with_timestamp Sample.secure_filename Sample.healthy Sample.scan_a =
    "20240309_140507_001234_scan.png" /\
  result_filename
    (filename_with_timestamp Sample.secure_filename Sample.healthy
       Sample.scan_a) =
    "detected_20240309_140507_001234_scan.jpg".
Proof.
  destruct (stored_and_result_names Sample.secure_filename Sample.b64encode
              Sample.healthy (Sample.upload_of Sample.scan_a) Sample.scan_a
              Sample.empty_world)
    as (stamp & Hstamp & _ & Hstored & _ & Hres & _).
  - split; vm_compute; reflexivity.
  - unfold datetime_ok. simpl. lia.
  - reflexivity.
  - split; [rewrite Hstored, Hstamp; vm_compute; reflexivity |].
    rewrite (Hres "scan" "png" eq_refl eq_refl), Hstamp.
    vm_compute. reflexivity.
Defined.

(** ** Collisions of stored names *)

Lemma accepted_upload_stored (secure_filename : string -> string)
    (b64encode : bytes -> string) (env : Env) (request : Request)
    (file : FileStorage) (w : World) :
  accepted request file ->
  file_save env
    ("uploads/" ++ filename_with_timestamp secure_filename env file) =
    Return tt ->
  fs (snd (upload_file secure_filename b64encode true env request w))
    !! ("uploads/" ++ filename_with_timestamp secure_filename env file) =
  Some (stream file).
Proof.
  intros Ha Hsave.
  destruct (upload_run secure_filename b64encode true env request w)
    as (response & w' & Hrun & Hcase).
  rewrite Hrun. cbn [snd].
  destruct Hcase as
    [(Hl & _) | [(_ & _ & m & Hr & _) | [(_ & _ & f & e & Hf & He & _) |
     (_ & f & Hf & _ & _ & Hup & _)]]].
  - discriminate.
  - exfalso. destruct Ha as [Hg Hok].
    destruct Hr as [Hn | f Hg' Hn | f Hg' Hn Hbad]; try congruence;
      assert (f = file) as -> by congruence;
      first [congruence | rewrite Hn in Hok; discriminate].
  - assert (f = file) as -> by (destruct Ha, Hf; congruence). congruence.
  - assert (f = file) as -> by (destruct Ha, Hf; congruence). exact Hup.
Qed.

(** C9 fails on the code: two accepted uploads with the same original file
    name that are stamped with the same instant get one and the same
    stored name, and the upload handled second replaces the bytes of the
    first under it. *)
Theorem colliding_uploads_overwrite (secure_filename : string -> string)
    (b64encode : bytes -> string) (env1 env2 : Env)
    (request1 request2 : Request) (file1 file2 : FileStorage) (w : World) :
  accepted request1 file1 -> accepted request2 file2 ->
  now env1 = now env2 ->
  filename file1 = filename file2 ->
  file_save env1
    ("uploads/" ++ filename_with_timestamp secure_filename env1 file1) =
    Return tt ->
  file_save env2
    ("uploads/" ++ filename_with_timestamp secure_filename env2 file2) =
    Return tt ->
  filename_with_timestamp secure_filename env1 file1 =
    filename_with_timestamp secure_filename env2 file2 /\
  fs (snd (upload_file secure_filename b64encode true env1 request1 w))
    !! ("uploads/" ++ filename_with_timestamp secure_filename env1 file1) =
    Some (stream file1) /\
  fs (snd (upload_file secure_filename b64encode true env2 request2
             (snd (upload_file secure_filename b64encode true env1 request1
                     w))))
    !! ("uploads/" ++ filename_with_timestamp secure_filename env1 file1) =
    Some (stream file2).
Proof.
  intros Ha1 Ha2 Hnow Hname Hs1 Hs2.
  assert (Hsame : filename_with_timestamp secure_filename env1 file1 =
                  filename_with_timestamp secure_filename env2 file2).
  { unfold filename_with_timestamp. now rewrite Hnow, Hname. }
  split; [exact Hsame |].
  split; [now apply accepted_upload_stored |].
  rewrite Hsame. now apply accepted_upload_stored.
Qed.

(** C9, on a sample: scan.png uploaded twice, with different bytes, in the
    same microsecond. *)
Lemma colliding_uploads_overwrite_witness :
  stream Sample.scan_a <> stream Sample.scan_b /\
  filename_with_timestamp Sample.secure_filename Sample.healthy Sample.scan_a =
    filename_with_timestamp Sample.secure_filename Sample.healthy
      Sample.scan_b /\
  fs (snd (upload_file Sample.secure_filename Sample.b64encode true
             Sample.healthy (Sample.upload_of Sample.scan_a)
             Sample.empty_world))
    !! ("uploads/" ++
        filename_with_timestamp Sample.secure_filename Sample.healthy
          Sample.scan_a) = Some (stream Sample.scan_a) /\
  fs (snd (upload_file Sample.secure_filename Sample.b64encode true
             Sample.healthy (Sample.upload_of Sample.scan_b)
             (snd (upload_file Sample.secure_filename Sample.b64encode true
                     Sample.healthy (Sample.upload_of Sample.scan_a)
                     Sample.empty_world))))
    !! ("uploads/" ++
        filename_with_timestamp Sample.secure_filename Sample.healthy
          Sample.scan_a) = Some (stream Sample.scan_b).
Proof.
  split; [discriminate |].
  apply (colliding_uploads_overwrite Sample.secure_filename Sample.b64encode
           Sample.healthy Sample.healthy (Sample.upload_of Sample.scan_a)
           (Sample.upload_of Sample.scan_b) Sample.scan_a Sample.scan_b
           Sample.empty_world).
  - split; vm_compute; reflexivity.
  - split; vm_compute; reflexivity.
  - reflexivity.
  - reflexivity.
  - reflexivity.
  - reflexivity.
Defined.
